(** * Fraud-scoring engine of the SWIFT transaction processor

    Shallow embedding of
    - [src/project/agents/workflow_agents/base_agents.py]:
      [FraudAmountDetectionAgent], [FraudPatternDetectionAgent],
      [FraudGeographicRiskAgent] and [FraudAggAgent];
    - [src/project/agents/parallelization.py]:
      [ParallelizationPattern._process_message] and
      [ParallelizationPattern.process_batch_parallel];
    - [src/project/agents/evaluator_optimizer.py]:
      [EvaluatorOptimizerPattern.evaluate_message], [_validate_bic] and
      [optimize_message];
    - [src/project/main.py]: the high-value filter of
      [process_with_orchestrator_worker] and
      [_generate_all_transactions_report].

    Modelling conventions.
    - A message is a Python dict from string keys to values; values are
      [None] or strings ([pyval]), and the dict is an association list.
    - Python floats are modelled by exact rationals [Q]: the float literals
      0.1, 0.2, ... are the rationals 1/10, 2/10, ... and the arithmetic is
      exact; [round] is round-half-even on the exact value, as Python's
      [round] on the float's exact value.
    - Text is [String.string]; [str.upper] and [str.lower] change the ASCII
      letters.
    - Python exceptions are the constructors of [exc], and code that may raise
      returns [res A := exc + A].
    - The thread pool of [process_batch_parallel] is abstracted by an oracle
      [timed_out i j] saying whether [future.result(timeout=5)] raised for the
      future of the [i]-th submitted message and [j]-th agent; otherwise that
      call returns [_process_message(message, agent)]. *)

From Stdlib Require Import String Ascii List ZArith QArith Qround Bool Lia.
From Stdlib Require Import Morphisms Lqa.
From Stdlib Require Import Sorted Permutation.
Import ListNotations.
Open Scope string_scope.

(* ------------------------------------------------------------------ *)
(** ** Python values, exceptions and dicts *)

Inductive pyval : Type :=
| PNone : pyval
| PStr : string -> pyval.

Inductive exc : Type :=
| AttributeError | TypeError | ValueError | KeyError | TimeoutError.

Definition res (A : Type) : Type := (exc + A)%type.

Definition ret {A : Type} (a : A) : res A := inr a.

Definition bind {A B : Type} (m : res A) (f : A -> res B) : res B :=
  match m with
  | inl e => inl e
  | inr a => f a
  end.

Notation "x <- m ;; f" := (bind m (fun x => f))
  (at level 61, m at next level, right associativity).

(** A message: a Python dict with string keys. *)
Definition message := list (string * pyval).

Fixpoint dict_lookup (m : message) (k : string) : option pyval :=
  match m with
  | [] => None
  | (k', v) :: m' => if String.eqb k k' then Some v else dict_lookup m' k
  end.

(** [message.get(k, default)] *)
Definition get (m : message) (k : string) (default : pyval) : pyval :=
  match dict_lookup m k with
  | Some v => v
  | None => default
  end.

(** Python truthiness of a value. *)
Definition py_truthy (v : pyval) : bool :=
  match v with
  | PNone => false
  | PStr s => negb (String.eqb s "")
  end.

(** Python [==] on values. *)
Definition pyval_eqb (a b : pyval) : bool :=
  match a, b with
  | PNone, PNone => true
  | PStr s, PStr t => String.eqb s t
  | _, _ => false
  end.

(* ------------------------------------------------------------------ *)
(** ** Strings *)

Definition ascii_upper (c : ascii) : ascii :=
  let n := nat_of_ascii c in
  if ((97 <=? n) && (n <=? 122))%nat then ascii_of_nat (n - 32)%nat else c.

Definition ascii_lower (c : ascii) : ascii :=
  let n := nat_of_ascii c in
  if ((65 <=? n) && (n <=? 90))%nat then ascii_of_nat (n + 32)%nat else c.

Fixpoint str_map (f : ascii -> ascii) (s : string) : string :=
  match s with
  | EmptyString => EmptyString
  | String c s' => String (f c) (str_map f s')
  end.

(** [s.upper()] and [s.lower()] *)
Definition upper (s : string) : string := str_map ascii_upper s.
Definition lower (s : string) : string := str_map ascii_lower s.

(** [p in s]: substring test. *)
Fixpoint contains (p s : string) : bool :=
  String.prefix p s ||
  match s with
  | EmptyString => false
  | String _ s' => contains p s'
  end.

(* ------------------------------------------------------------------ *)
(** ** Rationals standing for floats *)

(** [min(x, 1.0)]: Python's [min] keeps the first argument unless the
    second is strictly smaller. *)
Definition min1 (x : Q) : Q := if Qle_bool x 1 then x else 1.

(** [x % m] for floats (m > 0). *)
Definition qmod (x m : Q) : Q := x - m * inject_Z (Qfloor (x / m)).

Definition round_half_even (x : Q) : Z :=
  let f := Qfloor x in
  match Qcompare (x - inject_Z f) (1 # 2) with
  | Lt => f
  | Gt => (f + 1)%Z
  | Eq => if Z.even f then f else (f + 1)%Z
  end.

(** [round(x, nd)] *)
Definition py_round (x : Q) (nd : nat) : Q :=
  let p := inject_Z (10 ^ Z.of_nat nd) in
  inject_Z (round_half_even (x * p)) / p.

(** [sum(xs)]: left fold from the integer 0. *)
Definition py_sum (xs : list Q) : Q := fold_left Qplus xs 0.

(* ------------------------------------------------------------------ *)
(** ** Analysis results *)

Record result : Type := mk_result {
  agent : string;
  risk_score : Q;
  fraud_reasons : list string;
  r_message_id : option pyval;
  r_error : option exc
}.

Definition analysis (name : string) (score : Q) (reasons : list string)
  : result :=
  mk_result name (min1 score) reasons None None.

Definition Qltb (x y : Q) : bool := negb (Qle_bool y x).

(* ------------------------------------------------------------------ *)
(** ** [FraudAmountDetectionAgent] *)

Definition is_ascii_digit (c : ascii) : bool :=
  let n := nat_of_ascii c in ((48 <=? n) && (n <=? 57))%nat.

(** [str.isdigit] on one character: the ASCII digits and the Latin-1
    superscripts one, two and three. *)
Definition py_isdigit (c : ascii) : bool :=
  let n := nat_of_ascii c in
  (is_ascii_digit c || (n =? 178) || (n =? 179) || (n =? 185))%nat.

(** [''.join(c for c in amount_str if c.isdigit() or c == '.')] *)
Fixpoint filter_amount (s : string) : string :=
  match s with
  | EmptyString => EmptyString
  | String c s' =>
      if py_isdigit c || Ascii.eqb c "." then String c (filter_amount s')
      else filter_amount s'
  end.

Fixpoint take_digits (s : string) : list nat * string :=
  match s with
  | EmptyString => ([], EmptyString)
  | String c s' =>
      if is_ascii_digit c then
        let (ds, r) := take_digits s' in ((nat_of_ascii c - 48)%nat :: ds, r)
      else ([], s)
  end.

Definition digits_value (ds : list nat) : Z :=
  fold_left (fun acc d => (acc * 10 + Z.of_nat d)%Z) ds 0%Z.

(** A parsed amount: the value [mant / 10 ^ frac_digits]. *)
Record decimal : Type := mk_decimal { mant : Z; frac_digits : nat }.

Definition dec_to_Q (d : decimal) : Q :=
  inject_Z (mant d) / inject_Z (10 ^ Z.of_nat (frac_digits d)).

(** [float(s)] on a string of digits and dots (the only strings it receives
    here): [ddd], [ddd.], [ddd.ddd] or [.ddd]; anything else raises
    [ValueError]. *)
Definition py_float (s : string) : res decimal :=
  let (ip, rest) := take_digits s in
  match rest with
  | EmptyString =>
      match ip with
      | [] => inl ValueError
      | _ => ret (mk_decimal (digits_value ip) 0)
      end
  | String c rest' =>
      if Ascii.eqb c "." then
        let (fp, rest'') := take_digits rest' in
        match rest'' with
        | EmptyString =>
            match ip, fp with
            | [], [] => inl ValueError
            | _, _ => ret (mk_decimal (digits_value (ip ++ fp)%list) (length fp))
            end
        | _ => inl ValueError
        end
      else inl ValueError
  end.

(** Decimal digits of a natural number, most significant first. *)
Fixpoint N_digits_aux (fuel : nat) (n : N) (acc : list nat) : list nat :=
  match fuel with
  | O => acc
  | S fuel' =>
      let acc' := N.to_nat (N.modulo n 10) :: acc in
      if (n <? 10)%N then acc' else N_digits_aux fuel' (N.div n 10) acc'
  end.

Definition N_digits (n : N) : list nat := N_digits_aux (N.to_nat (N.size n) + 1) n [].

Definition string_of_digits (ds : list nat) : string :=
  fold_right (fun d s => String (ascii_of_nat (48 + d)) s) EmptyString ds.

Fixpoint drop_zeros (ds : list nat) : list nat :=
  match ds with
  | 0%nat :: ds' => drop_zeros ds'
  | _ => ds
  end.

Definition strip_trailing_zeros (ds : list nat) : list nat :=
  rev (drop_zeros (rev ds)).

(** [repr(float)] of a non-negative amount: positional below 1e16, with at
    least one fractional digit, and [d.ddde+XX] from 1e16 on. *)
Definition repr_amount (d : decimal) : string :=
  let k := frac_digits d in
  let ds := N_digits (Z.to_N (mant d)) in
  let padded := (repeat 0%nat (S k - length ds) ++ ds)%list in
  let ip := firstn (length padded - k) padded in
  let fp := strip_trailing_zeros (skipn (length padded - k) padded) in
  if Qle_bool (inject_Z (10 ^ 16)) (dec_to_Q d) then
    match strip_trailing_zeros (ip ++ fp)%list with
    | [] => "0.0"
    | d0 :: rest =>
        string_of_digits [d0] ++
        (match rest with [] => "" | _ => "." ++ string_of_digits rest end) ++
        "e+" ++ string_of_digits (N_digits (N.of_nat (length ip - 1)))
    end
  else
    string_of_digits ip ++ "." ++
    string_of_digits (match fp with [] => [0%nat] | _ => fp end).

Definition amount_rules (d : decimal) : Q * list string :=
  let amount := dec_to_Q d in
  let acc0 : Q * list string := (0, []) in
  (* Rule 1: Large amounts *)
  let acc1 :=
    if Qltb 10000 amount
    then (fst acc0 + (3 # 10),
          (snd acc0 ++ [String.append "High amount transaction: " (repr_amount d)])%list)
    else acc0 in
  (* Rule 2: Round amounts (multiples of 1000) *)
  let acc2 :=
    if Qeq_bool (qmod amount 1000) 0 && Qltb 0 amount
    then (fst acc1 + (2 # 10),
          (snd acc1 ++ [String.append "Suspiciously round amount: " (repr_amount d)])%list)
    else acc1 in
  (* Rule 3: Unusual precision for large amounts *)
  let acc3 :=
    if Qltb 100000 amount && negb (Qeq_bool (qmod amount 1) 0)
    then (fst acc2 + (1 # 10),
          (snd acc2 ++ ["Large amount with unusual decimal precision"])%list)
    else acc2 in
  acc3.

(** [FraudAmountDetectionAgent.analyze]: [ValueError] and [TypeError] of the
    parse are caught and leave the score at 0 with no reasons. *)
Definition amount_analyze (m : message) : res result :=
  let '(score, reasons) :=
    match get m "amount" (PStr "0") with
    | PNone => (0, [])
    | PStr amount_str =>
        match py_float (filter_amount amount_str) with
        | inl _ => (0, [])
        | inr d => amount_rules d
        end
    end in
  ret (analysis "FraudAmountDetectionAgent" score reasons).

(* ------------------------------------------------------------------ *)
(** ** [FraudPatternDetectionAgent] *)

Definition high_risk_patterns : list string :=
  ["TEST"; "FAKE"; "DEMO"; "999"; "000000"].

Definition suspicious_keywords : list string :=
  ["urgent"; "immediately"; "secret"; "confidential"].

(** [v.upper()]: [None] has no [upper]. *)
Definition py_upper (v : pyval) : res string :=
  match v with
  | PNone => inl AttributeError
  | PStr s => ret (upper s)
  end.

(** [pattern in sender_bic.upper() or pattern in receiver_bic.upper()],
    evaluated left to right with short circuit. *)
Definition bic_hit (pattern : string) (sender_bic receiver_bic : pyval)
  : res bool :=
  s <- py_upper sender_bic ;;
  if contains pattern s then ret true
  else (r <- py_upper receiver_bic ;; ret (contains pattern r)).

(** The loop over [self.high_risk_patterns]. *)
Fixpoint scan_patterns (ps : list string) (sender_bic receiver_bic : pyval)
  (acc : Q * list string) : res (Q * list string) :=
  match ps with
  | [] => ret acc
  | pattern :: ps' =>
      hit <- bic_hit pattern sender_bic receiver_bic ;;
      scan_patterns ps' sender_bic receiver_bic
        (if hit
         then (fst acc + (4 # 10),
               (snd acc ++
                 [String.append "Test/fake pattern detected in BIC: " pattern])%list)
         else acc)
  end.

(** The loop over [self.suspicious_keywords] on the lower-cased memo. *)
Fixpoint scan_keywords (ks : list string) (remittance : string)
  (acc : Q * list string) : Q * list string :=
  match ks with
  | [] => acc
  | keyword :: ks' =>
      scan_keywords ks' remittance
        (if contains keyword remittance
         then (fst acc + (2 # 10),
               (snd acc ++
                 [String.append "Suspicious keyword in remittance: " keyword])%list)
         else acc)
  end.

(** [message.get('remittance_info', '') or '']: falsy values become [''] *)
Definition remittance_of (m : message) : string :=
  match get m "remittance_info" (PStr "") with
  | PNone => ""
  | PStr s => s
  end.

(** The BIC part of [FraudPatternDetectionAgent.analyze] (lines 176-188). *)
Definition pattern_bic_checks (m : message) : res (Q * list string) :=
  let sender_bic := get m "sender_bic" (PStr "") in
  let receiver_bic := get m "receiver_bic" (PStr "") in
  acc <- scan_patterns high_risk_patterns sender_bic receiver_bic (0, []) ;;
  (* Check for same sender and receiver *)
  ret (if py_truthy sender_bic && pyval_eqb sender_bic receiver_bic
       then (fst acc + (5 # 10),
             (snd acc ++ ["Same sender and receiver BIC"])%list)
       else acc).

(** [FraudPatternDetectionAgent.analyze] *)
Definition pattern_analyze (m : message) : res result :=
  acc <- pattern_bic_checks m ;;
  let remittance := lower (remittance_of m) in
  let '(score, reasons) := scan_keywords suspicious_keywords remittance acc in
  ret (analysis "FraudPatternDetectionAgent" score reasons).

(* ------------------------------------------------------------------ *)
(** ** [FraudGeographicRiskAgent] *)

Definition high_risk_countries : list string :=
  ["IR"; "KP"; "SY"; "CU"; "VE"; "RU"; "BY"; "AF"; "IQ"; "LB";
   "SD"; "ZW"; "MM"; "YE"; "SO"; "CD"; "CG"; "HT"; "TG"; "GN"].

Definition medium_risk_countries : list string :=
  ["CN"; "HK"; "SG"; "AE"; "SA"; "QA"; "KW"; "BH"; "OM"; "JO";
   "TR"; "EG"; "MA"; "TN"; "DZ"; "LY"; "PK"; "BD"; "LK"; "NP"].

(** [x in S] for a set of strings. *)
Definition mem (x : string) (set : list string) : bool :=
  existsb (String.eqb x) set.

(** [bic[4:6].upper() if len(bic) >= 6 else '']; [len(None)] raises
    [TypeError], which the agent does not catch. *)
Definition country_of (bic : pyval) : res string :=
  match bic with
  | PNone => inl TypeError
  | PStr s =>
      ret (if (6 <=? String.length s)%nat then upper (substring 4 2 s) else "")
  end.

Definition geo_rules (sender_country receiver_country : string)
  : Q * list string :=
  let acc0 : Q * list string := (0, []) in
  let acc1 :=
    if mem sender_country high_risk_countries
    then (fst acc0 + (4 # 10),
          (snd acc0 ++ [String.append "High-risk sender country: " sender_country])%list)
    else acc0 in
  let acc2 :=
    if mem receiver_country high_risk_countries
    then (fst acc1 + (4 # 10),
          (snd acc1 ++ [String.append "High-risk receiver country: " receiver_country])%list)
    else acc1 in
  let acc3 :=
    if mem sender_country medium_risk_countries
    then (fst acc2 + (2 # 10),
          (snd acc2 ++ [String.append "Medium-risk sender country: " sender_country])%list)
    else acc2 in
  let acc4 :=
    if mem receiver_country medium_risk_countries
    then (fst acc3 + (2 # 10),
          (snd acc3 ++ [String.append "Medium-risk receiver country: " receiver_country])%list)
    else acc3 in
  (* Check for unusual country combinations *)
  let acc5 :=
    if negb (String.eqb sender_country "") && negb (String.eqb receiver_country "")
    then
      let sender_high_risk := mem sender_country high_risk_countries in
      let sender_med_risk := mem sender_country medium_risk_countries in
      let receiver_high_risk := mem receiver_country high_risk_countries in
      let receiver_med_risk := mem receiver_country medium_risk_countries in
      if (sender_high_risk && negb receiver_high_risk && negb receiver_med_risk) ||
         (receiver_high_risk && negb sender_high_risk && negb sender_med_risk)
      then (fst acc4 + (3 # 10),
            (snd acc4 ++
              [String.append "Unusual risk level combination: "
                 (sender_country ++ " ? " ++ receiver_country)])%list)
      else acc4
    else acc4 in
  acc5.

(** [FraudGeographicRiskAgent.analyze] *)
Definition geo_analyze (m : message) : res result :=
  let sender_bic := get m "sender_bic" (PStr "") in
  let receiver_bic := get m "receiver_bic" (PStr "") in
  sender_country <- country_of sender_bic ;;
  receiver_country <- country_of receiver_bic ;;
  let '(score, reasons) := geo_rules sender_country receiver_country in
  ret (analysis "FraudGeographicRiskAgent" score reasons).

(* ------------------------------------------------------------------ *)
(** ** [FraudAggAgent] *)

Record verdict : Type := mk_verdict {
  is_fraudulent : bool;
  confidence : Q;
  total_risk_score : Q;
  aggregated_reasons : list string
}.

(** [self.threshold] *)
Definition threshold : Q := 1 # 2.

(** The reason loop of [aggregate_results]. *)
Definition collect_reasons (fraud_results : list result) : list string :=
  fold_left
    (fun all_reasons result0 =>
       fold_left
         (fun acc reason =>
            (acc ++ [String.append "[" (agent result0 ++ "] " ++ reason)])%list)
         (fraud_reasons result0) all_reasons)
    fraud_results [].

(** [FraudAggAgent.aggregate_results] *)
Definition aggregate_results (fraud_results : list result) : verdict :=
  match fraud_results with
  | [] => mk_verdict false 0 0 []
  | _ =>
      let total_risk := py_sum (map risk_score fraud_results) in
      let avg_risk := total_risk / inject_Z (Z.of_nat (length fraud_results)) in
      let all_reasons := collect_reasons fraud_results in
      let is_fraudulent0 := Qle_bool threshold avg_risk in
      mk_verdict is_fraudulent0 (py_round (avg_risk * 100) 2)
        (py_round avg_risk 3) all_reasons
  end.

(* ------------------------------------------------------------------ *)
(** ** [ParallelizationPattern] *)

Inductive fraud_agent : Type :=
| FraudAmountDetectionAgent
| FraudPatternDetectionAgent
| FraudGeographicRiskAgent.

(** [agent.__class__.__name__] *)
Definition class_name (a : fraud_agent) : string :=
  match a with
  | FraudAmountDetectionAgent => "FraudAmountDetectionAgent"
  | FraudPatternDetectionAgent => "FraudPatternDetectionAgent"
  | FraudGeographicRiskAgent => "FraudGeographicRiskAgent"
  end.

(** [agent.analyze(message)] *)
Definition analyze (a : fraud_agent) (m : message) : res result :=
  match a with
  | FraudAmountDetectionAgent => amount_analyze m
  | FraudPatternDetectionAgent => pattern_analyze m
  | FraudGeographicRiskAgent => geo_analyze m
  end.

(** [self.list_of_agents] *)
Definition list_of_agents : list fraud_agent :=
  [FraudAmountDetectionAgent; FraudPatternDetectionAgent;
   FraudGeographicRiskAgent].

(** [ParallelizationPattern._process_message]: an exception of [analyze]
    becomes a zero-score result carrying the error. *)
Definition process_message (m : message) (a : fraud_agent) : result :=
  match analyze a m with
  | inl e => mk_result (class_name a) 0 [] None (Some e)
  | inr r =>
      mk_result (agent r) (risk_score r) (fraud_reasons r)
        (Some (get m "message_id" (PStr "unknown"))) (r_error r)
  end.

(** A message after [process_batch_parallel] wrote its fraud fields. *)
Record annotated : Type := mk_annotated {
  ann_message : message;
  fraud_status : string;
  fraud_score : Q;
  msg_fraud_reasons : list string;
  fraud_analysis : list result
}.

(** [future_to_msg]: a Python dict keyed by [message['message_id']]; the
    value records the submitted message and the position [i] of its futures.
    Assigning to a present key replaces the value in place. *)
Definition future_table := list (pyval * (nat * message)).

Fixpoint dict_set (d : future_table) (k : pyval) (v : nat * message)
  : future_table :=
  match d with
  | [] => [(k, v)]
  | (k', v') :: d' =>
      if pyval_eqb k k' then (k', v) :: d' else (k', v') :: dict_set d' k v
  end.

(** The submission loop (lines 87-98); [message['message_id']] raises
    [KeyError] when the key is missing, which aborts the batch. *)
Fixpoint submit_all (messages : list message) (i : nat) (acc : future_table)
  : res future_table :=
  match messages with
  | [] => ret acc
  | m :: ms =>
      match dict_lookup m "message_id" with
      | None => inl KeyError
      | Some k => submit_all ms (S i) (dict_set acc k (i, m))
      end
  end.

(** The wait loop of one message (lines 106-111): a future whose
    [result(timeout=5)] raises is reported and skipped. *)
Fixpoint wait_results (timed_out : nat -> nat -> bool) (i j : nat)
  (m : message) (agents : list fraud_agent) : list result :=
  match agents with
  | [] => []
  | a :: agents' =>
      if timed_out i j then wait_results timed_out i (S j) m agents'
      else process_message m a :: wait_results timed_out i (S j) m agents'
  end.

(** One iteration of the collection loop (lines 101-127); the aggregator
    object is always truthy, so the [PENDING] branch is dead. *)
Definition collect_message (agents : list fraud_agent)
  (timed_out : nat -> nat -> bool) (entry : pyval * (nat * message))
  : annotated :=
  let '(_, (i, m)) := entry in
  let agent_results := wait_results timed_out i 0 m agents in
  let aggregated := aggregate_results agent_results in
  mk_annotated m
    (if is_fraudulent aggregated then "FRAUDULENT" else "CLEAN")
    (confidence aggregated) (aggregated_reasons aggregated) agent_results.

(** [ParallelizationPattern.process_batch_parallel] over the agent list
    [agents]. *)
Definition process_batch_parallel (agents : list fraud_agent)
  (timed_out : nat -> nat -> bool) (messages : list message)
  : res (list annotated) :=
  future_to_msg <- submit_all messages 0 [] ;;
  ret (map (collect_message agents timed_out) future_to_msg).

(* ------------------------------------------------------------------ *)
(** ** Formatting helpers *)

(** [f"{v}"] of a value. *)
Definition py_str (v : pyval) : string :=
  match v with
  | PNone => "None"
  | PStr s => s
  end.

(** [str(n)] of a non-negative integer. *)
Definition nat_str (n : nat) : string := string_of_digits (N_digits (N.of_nat n)).

(** [str(z)] of an integer. *)
Definition Z_str (z : Z) : string :=
  if (z <? 0)%Z then "-" ++ nat_str (Z.to_nat (- z)) else nat_str (Z.to_nat z).

(** [c * n] for a one-character string [c]. *)
Fixpoint str_repeat (n : nat) (c : ascii) : string :=
  match n with
  | O => EmptyString
  | S n' => String c (str_repeat n' c)
  end.

(** [repr(float)] of a non-negative amount, including the [d.ddde-XX] form
    Python uses below 1e-4. *)
Definition repr_float (d : decimal) : string :=
  if Qltb 0 (dec_to_Q d) && Qltb (dec_to_Q d) (1 # 10000) then
    let ds := N_digits (Z.to_N (mant d)) in
    let e := (frac_digits d - (length ds - 1))%nat in
    match strip_trailing_zeros ds with
    | [] => "0.0"
    | d0 :: rest =>
        string_of_digits [d0] ++
        (match rest with [] => "" | _ => "." ++ string_of_digits rest end) ++
        "e-" ++ (if (e <? 10)%nat then "0" else "") ++ nat_str e
    end
  else repr_amount d.

(** [str.isspace] on one character (Latin-1). *)
Definition py_isspace (c : ascii) : bool :=
  let n := nat_of_ascii c in
  (((9 <=? n) && (n <=? 13)) || ((28 <=? n) && (n <=? 32)) ||
   (n =? 133) || (n =? 160))%nat.

Fixpoint py_split_acc (s cur : string) : list string :=
  match s with
  | EmptyString => if String.eqb cur "" then [] else [cur]
  | String c s' =>
      if py_isspace c then
        (if String.eqb cur "" then py_split_acc s' ""
         else cur :: py_split_acc s' "")
      else py_split_acc s' (cur ++ String c "")
  end.

(** [s.split()]: the maximal runs of non-whitespace characters. *)
Definition py_split (s : string) : list string := py_split_acc s "".

(** [xs[-1]], [None] standing for [IndexError]. *)
Fixpoint py_last (xs : list string) : option string :=
  match xs with
  | [] => None
  | [x] => Some x
  | _ :: xs' => py_last xs'
  end.

(** [str.isalpha] on one character (Latin-1). *)
Definition py_isalpha_char (c : ascii) : bool :=
  let n := nat_of_ascii c in
  (((65 <=? n) && (n <=? 90)) || ((97 <=? n) && (n <=? 122)) ||
   (n =? 170) || (n =? 181) || (n =? 186) ||
   ((192 <=? n) && (n <=? 214)) || ((216 <=? n) && (n <=? 246)) ||
   ((248 <=? n) && (n <=? 255)))%nat.

(** [str.isalnum] on one character (Latin-1): letters, digits and the
    numeric characters superscripts and vulgar fractions. *)
Definition py_isalnum_char (c : ascii) : bool :=
  let n := nat_of_ascii c in
  (py_isalpha_char c || is_ascii_digit c ||
   (n =? 178) || (n =? 179) || (n =? 185) ||
   (n =? 188) || (n =? 189) || (n =? 190))%nat.

Fixpoint str_forall (f : ascii -> bool) (s : string) : bool :=
  match s with
  | EmptyString => true
  | String c s' => f c && str_forall f s'
  end.

(** [s.isalpha()] and [s.isalnum()]: false on the empty string. *)
Definition py_isalpha (s : string) : bool :=
  negb (String.eqb s "") && str_forall py_isalpha_char s.

Definition py_isalnum (s : string) : bool :=
  negb (String.eqb s "") && str_forall py_isalnum_char s.

(** [float(''.join(c for c in amount_str if c.isdigit() or c == '.'))];
    iterating over [None] raises [TypeError]. *)
Definition parse_amount (v : pyval) : res decimal :=
  match v with
  | PNone => inl TypeError
  | PStr s => py_float (filter_amount s)
  end.

(* ------------------------------------------------------------------ *)
(** ** [EvaluatorOptimizerPattern]
    ([src/project/agents/evaluator_optimizer.py]) *)

Definition required_fields : list string :=
  ["message_type"; "reference"; "amount"; "sender_bic"; "receiver_bic"].

Definition valid_message_types : list string := ["MT103"; "MT202"].

Definition valid_currencies : list string := ["USD"; "EUR"; "GBP"; "JPY"; "CHF"].

Definition max_reference_length : nat := 16.

Definition max_amount : Q := 99999999999 # 100.

Definition min_amount : Q := 1 # 100.

(** [EvaluatorOptimizerPattern._validate_bic] *)
Definition validate_bic (bic : pyval) : bool :=
  match bic with
  | PNone => false
  | PStr s =>
      if String.eqb s "" then false
      else if negb ((String.length s =? 8) || (String.length s =? 11))%nat then false
      (* First 4 characters must be letters (bank code) *)
      else if negb (py_isalpha (substring 0 4 s)) then false
      (* Characters 5-6 must be letters (country code) *)
      else if negb (py_isalpha (substring 4 2 s)) then false
      (* Characters 7-8 must be alphanumeric (location code) *)
      else if negb (py_isalnum (substring 6 2 s)) then false
      (* If 11 characters, last 3 must be alphanumeric (branch code) *)
      else if (String.length s =? 11)%nat && negb (py_isalnum (substring 8 3 s))
      then false
      else true
  end.

(** [field not in message or not message[field]] *)
Definition missing_field (m : message) (field : string) : bool :=
  match dict_lookup m field with
  | None => true
  | Some v => negb (py_truthy v)
  end.

(** [message.get(k) in xs] for a list of strings. *)
Definition pyval_in (v : pyval) (xs : list string) : bool :=
  match v with
  | PNone => false
  | PStr s => mem s xs
  end.

(** The amount check of [evaluate_message] (lines 70-80). *)
Definition amount_errors (m : message) : list string :=
  let invalid := ["Invalid amount format: " ++ py_str (get m "amount" PNone)] in
  match get m "amount" (PStr "0") with
  | PNone => invalid
  | PStr amount_str =>
      match py_split amount_str with
      | [] => invalid
      | tok :: _ =>
          match py_float (filter_amount tok) with
          | inl _ => invalid
          | inr d =>
              if Qltb max_amount (dec_to_Q d)
              then ["Amount exceeds maximum: " ++ repr_float d]
              else if Qltb (dec_to_Q d) min_amount
              then ["Amount below minimum: " ++ repr_float d]
              else []
          end
      end
  end.

(** The currency check of [evaluate_message] (lines 96-102). *)
Definition currency_errors (m : message) : list string :=
  match dict_lookup m "amount" with
  | None => []
  | Some PNone => ["Cannot extract currency from amount"]
  | Some (PStr s) =>
      match py_last (py_split s) with
      | None => ["Cannot extract currency from amount"]
      | Some currency =>
          if mem currency valid_currencies then []
          else ["Invalid currency: " ++ currency]
      end
  end.

(** [EvaluatorOptimizerPattern.evaluate_message]: [len(None)] on a [None]
    reference raises [TypeError], which is not caught. *)
Definition evaluate_message (m : message) : res (bool * list string) :=
  (* Check required fields *)
  let errors0 :=
    flat_map (fun field =>
      if missing_field m field then ["Missing required field: " ++ field] else [])
      required_fields in
  (* Validate message type *)
  let errors1 :=
    app errors0
      (if pyval_in (get m "message_type" PNone) valid_message_types then []
       else ["Invalid message type: " ++ py_str (get m "message_type" PNone)]) in
  (* Validate reference length *)
  match get m "reference" (PStr "") with
  | PNone => inl TypeError
  | PStr reference =>
      let errors2 :=
        app errors1
          (if (max_reference_length <? String.length reference)%nat
           then ["Reference too long: " ++ nat_str (String.length reference) ++
                 " chars (max " ++ nat_str max_reference_length ++ ")"]
           else []) in
      (* Validate amount *)
      let errors3 := app errors2 (amount_errors m) in
      (* Validate BIC codes *)
      let sender_bic := get m "sender_bic" (PStr "") in
      let receiver_bic := get m "receiver_bic" (PStr "") in
      let errors4 :=
        app errors3
          (app (if validate_bic sender_bic then []
                else ["Invalid sender BIC: " ++ py_str sender_bic])
               (if validate_bic receiver_bic then []
                else ["Invalid receiver BIC: " ++ py_str receiver_bic])) in
      (* Check if same sender and receiver *)
      let errors5 :=
        app errors4
          (if py_truthy sender_bic && pyval_eqb sender_bic receiver_bic
           then ["Sender and receiver BIC cannot be the same"] else []) in
      (* Validate currency *)
      let errors6 := app errors5 (currency_errors m) in
      ret ((length errors6 =? 0)%nat, errors6)
  end.

(** [EvaluatorOptimizerPattern.optimize_message]; the reply of
    [self.correction_agent.respond(message, errors)] is the oracle
    [respond], an exception standing for any failure of the correction
    step, caught by the method. A missing key is added at the end of the
    reply dict. *)
Definition optimize_message (respond : message -> list string -> res message)
  (m : message) (errors : list string) : message :=
  match errors with
  | [] => m
  | _ =>
      match respond m errors with
      | inl _ => m
      | inr corrected =>
          fold_left (fun c field =>
            match dict_lookup c field with
            | Some _ => c
            | None => (c ++ [(field, get m field (PStr ""))])%list
            end) required_fields corrected
      end
  end.

(* ------------------------------------------------------------------ *)
(** ** [SWIFTProcessingSystem] reports ([src/project/main.py]) *)

(** The high-value filter of [process_with_orchestrator_worker]
    (lines 133-141): [ValueError] and [TypeError] skip the message. *)
Definition high_value_messages (messages : list message) : list message :=
  filter (fun msg =>
    match parse_amount (get msg "amount" (PStr "0")) with
    | inl _ => false
    | inr d => Qltb 50000 (dec_to_Q d)
    end) messages.

(** The counters of [_generate_all_transactions_report] (lines 160-183):
    total amount, valid, fraudulent, MT103 and MT202 counts. *)
Record report_stats : Type := mk_stats {
  total_amount : Q;
  valid_count : nat;
  fraudulent_count : nat;
  mt103_count : nat;
  mt202_count : nat
}.

Definition stats_step (st : report_stats) (msg : message) : report_stats :=
  let total' :=
    match parse_amount (get msg "amount" (PStr "0")) with
    | inl _ => total_amount st
    | inr d => total_amount st + dec_to_Q d
    end in
  let valid' :=
    if pyval_eqb (get msg "validation_status" PNone) (PStr "VALID")
    then S (valid_count st) else valid_count st in
  let fraud' :=
    if pyval_eqb (get msg "fraud_status" PNone) (PStr "FRAUDULENT")
    then S (fraudulent_count st) else fraudulent_count st in
  let '(mt103', mt202') :=
    if pyval_eqb (get msg "message_type" PNone) (PStr "MT103")
    then (S (mt103_count st), mt202_count st)
    else if pyval_eqb (get msg "message_type" PNone) (PStr "MT202")
    then (mt103_count st, S (mt202_count st))
    else (mt103_count st, mt202_count st) in
  mk_stats total' valid' fraud' mt103' mt202'.

(** The entries [(amount, msg)] to be sorted (lines 198-205): any
    exception gives the amount 0. *)
Definition amount_entry (msg : message) : Q * message :=
  match parse_amount (get msg "amount" (PStr "0")) with
  | inl _ => (0, msg)
  | inr d => (dec_to_Q d, msg)
  end.

(** [list.sort(reverse=True, key=lambda x: x[0])] is stable: an element
    goes after every element whose key is not smaller. *)
Fixpoint insert_desc (x : Q * message) (l : list (Q * message))
  : list (Q * message) :=
  match l with
  | [] => [x]
  | y :: l' => if Qltb (fst y) (fst x) then x :: l else y :: insert_desc x l'
  end.

Definition sort_desc (l : list (Q * message)) : list (Q * message) :=
  fold_left (fun acc x => insert_desc x acc) l [].

(** One line of the top-10 listing: the literal ["2d"] is concatenated
    with the f-strings that follow it. *)
Definition top_line (msg : message) : string :=
  let status :=
    if pyval_eqb (get msg "validation_status" PNone) (PStr "VALID")
    then "VALID" else "INVALID" in
  let fraud_status := get msg "fraud_status" (PStr "UNKNOWN") in
  "2d" ++ "Type: " ++ py_str (get msg "message_type" (PStr "N/A")) ++ " | " ++
  "Status: " ++ status ++ " | " ++ "Fraud: " ++ py_str fraud_status.

(** The lines of [_generate_all_transactions_report], [now] standing for
    the formatted [datetime.now()]; the file holds them joined by
    newlines. *)
Definition all_transactions_report (now : string) (messages : list message)
  : list string :=
  let st := fold_left stats_step messages (mk_stats 0 0 0 0 0) in
  let sorted_messages := sort_desc (map amount_entry messages) in
  app
    [str_repeat 80 "=";
     "SWIFT TRANSACTION PROCESSING SYSTEM - ALL TRANSACTIONS REPORT";
     str_repeat 80 "=";
     "Generated: " ++ now;
     "Total Transactions: " ++ nat_str (length messages);
     "";
     "SUMMARY STATISTICS:";
     "- Valid Messages: " ++ nat_str (valid_count st);
     "- Fraudulent Messages: " ++ nat_str (fraudulent_count st);
     "- Clean Messages: " ++
       Z_str (Z.of_nat (length messages) - Z.of_nat (fraudulent_count st));
     "- MT103 Messages: " ++ nat_str (mt103_count st);
     "- MT202 Messages: " ++ nat_str (mt202_count st);
     ".2f";
     "";
     "TOP 10 TRANSACTIONS BY AMOUNT:";
     str_repeat 80 "-"]
    (app (map (fun e => top_line (snd e)) (firstn 10 sorted_messages)) [""]).

(** A dict with the two identifier codes swapped. *)
Definition swap_bics (m : message) : message :=
  ("sender_bic", get m "receiver_bic" (PStr "")) ::
  ("receiver_bic", get m "sender_bic" (PStr "")) :: m.


(* ================================================================== *)
(** * Properties *)

(* ------------------------------------------------------------------ *)
(** ** Rational helpers *)

Lemma min1_bounds (x : Q) : 0 <= x -> 0 <= min1 x /\ min1 x <= 1.
Proof.
  intro Hx. unfold min1. destruct (Qle_bool x 1) eqn:E.
  - apply Qle_bool_iff in E. split; assumption.
  - split; lra.
Qed.

Lemma min1_compat (x y : Q) : x == y -> min1 x == min1 y.
Proof.
  intro H. unfold min1.
  destruct (Qle_bool x 1) eqn:Ex, (Qle_bool y 1) eqn:Ey; try assumption;
    try reflexivity.
  - apply Qle_bool_iff in Ex. rewrite H in Ex.
    apply Qle_bool_iff in Ex. congruence.
  - apply Qle_bool_iff in Ey. rewrite <- H in Ey.
    apply Qle_bool_iff in Ey. congruence.
Qed.

Lemma round_half_even_compat (x y : Q) :
  x == y -> round_half_even x = round_half_even y.
Proof.
  intro H. unfold round_half_even.
  rewrite (Qfloor_comp x y H).
  assert (Hc : Qcompare (x - inject_Z (Qfloor y)) (1 # 2)
               = Qcompare (y - inject_Z (Qfloor y)) (1 # 2)).
  { apply Qcompare_comp; [rewrite H|]; reflexivity. }
  rewrite Hc. reflexivity.
Qed.

Lemma py_round_compat (x y : Q) (nd : nat) :
  x == y -> py_round x nd = py_round y nd.
Proof.
  intro H. unfold py_round.
  rewrite (round_half_even_compat (x * inject_Z (10 ^ Z.of_nat nd))
             (y * inject_Z (10 ^ Z.of_nat nd))); [reflexivity|].
  rewrite H. reflexivity.
Qed.

Lemma fold_left_Qplus_acc (xs : list Q) (a : Q) :
  fold_left Qplus xs a == a + fold_right Qplus 0 xs.
Proof.
  revert a. induction xs as [|x xs IH]; intro a; simpl.
  - lra.
  - rewrite IH. lra.
Qed.

Lemma py_sum_fold_right (xs : list Q) : py_sum xs == fold_right Qplus 0 xs.
Proof. unfold py_sum. rewrite fold_left_Qplus_acc. lra. Qed.

Lemma collect_reasons_acc (rs : list result) (acc : list string) :
  fold_left
    (fun all_reasons result0 =>
       fold_left
         (fun acc reason =>
            (acc ++ [String.append "[" (agent result0 ++ "] " ++ reason)])%list)
         (fraud_reasons result0) all_reasons)
    rs acc
  = (acc ++ flat_map (fun r => map (fun reason =>
           String.append "[" (agent r ++ "] " ++ reason)) (fraud_reasons r)) rs)%list.
Proof.
  revert acc. induction rs as [|r rs IH]; intro acc; simpl.
  - rewrite app_nil_r. reflexivity.
  - rewrite IH. rewrite app_assoc. f_equal.
    clear IH. generalize (fraud_reasons r) as l. intro l. revert acc.
    induction l as [|x l IHl]; intro acc; simpl.
    + rewrite app_nil_r. reflexivity.
    + rewrite IHl. rewrite <- app_assoc. reflexivity.
Qed.

(* ------------------------------------------------------------------ *)
(** ** Aggregation *)

(** The mean of the scores as the spec states it. *)
Definition mean_score (rs : list result) : Q :=
  fold_right Qplus 0 (map risk_score rs) / inject_Z (Z.of_nat (length rs)).

(** C4: on a non-empty list of results, [aggregate_results] is fraudulent
    exactly when the mean score is at least 0.5, its confidence is the mean
    times 100 rounded to 2 decimals and its total risk score is the mean
    rounded to 3 decimals. *)
Theorem C4_aggregate_nonempty (rs : list result) (Hne : rs <> []) :
  (is_fraudulent (aggregate_results rs) = true <-> 1 # 2 <= mean_score rs) /\
  confidence (aggregate_results rs) = py_round (mean_score rs * 100) 2 /\
  total_risk_score (aggregate_results rs) = py_round (mean_score rs) 3.
Proof.
  destruct rs as [|r0 rs']; [contradiction|].
  set (rs := r0 :: rs').
  assert (Havg : py_sum (map risk_score rs) / inject_Z (Z.of_nat (length rs))
                 == mean_score rs).
  { unfold mean_score. rewrite py_sum_fold_right. reflexivity. }
  change (aggregate_results rs) with
    (mk_verdict
       (Qle_bool threshold (py_sum (map risk_score rs) /
                            inject_Z (Z.of_nat (length rs))))
       (py_round (py_sum (map risk_score rs) /
                  inject_Z (Z.of_nat (length rs)) * 100) 2)
       (py_round (py_sum (map risk_score rs) /
                  inject_Z (Z.of_nat (length rs))) 3)
       (collect_reasons rs)).
  cbn [is_fraudulent confidence total_risk_score]. split; [|split].
  - rewrite Qle_bool_iff. unfold threshold. rewrite Havg. reflexivity.
  - apply py_round_compat. rewrite Havg. reflexivity.
  - apply py_round_compat. exact Havg.
Qed.

Lemma C4_aggregate_nonempty_witness :
  let rs := [mk_result "A" (1 # 2) [] None None; mk_result "B" 0 [] None None] in
  rs <> [] /\
  ((is_fraudulent (aggregate_results rs) = true <-> 1 # 2 <= mean_score rs) /\
   confidence (aggregate_results rs) = py_round (mean_score rs * 100) 2 /\
   total_risk_score (aggregate_results rs) = py_round (mean_score rs) 3).
Proof.
  intro rs. split.
  - discriminate.
  - apply C4_aggregate_nonempty. discriminate.
Defined.

(** C5: the aggregated reasons are the concatenation, in input order, of
    every result's reasons, each prefixed with [[<agent>] ]. *)
Theorem C5_aggregated_reasons (rs : list result) :
  aggregated_reasons (aggregate_results rs) =
  flat_map (fun r => map (fun reason =>
               String.append "[" (agent r ++ "] " ++ reason)) (fraud_reasons r)) rs.
Proof.
  destruct rs as [|r0 rs']; [reflexivity|].
  unfold aggregate_results. simpl aggregated_reasons.
  unfold collect_reasons. rewrite collect_reasons_acc. reflexivity.
Qed.

(** C9: aggregating no result gives the non-fraudulent zero verdict. *)
Theorem C9_aggregate_empty :
  aggregate_results [] = mk_verdict false 0 0 [].
Proof. reflexivity. Qed.

(* ------------------------------------------------------------------ *)
(** ** Score bounds *)

Lemma amount_rules_nonneg (d : decimal) : 0 <= fst (amount_rules d).
Proof.
  unfold amount_rules.
  destruct (Qltb 10000 (dec_to_Q d));
  destruct (Qeq_bool _ 0 && Qltb 0 (dec_to_Q d));
  destruct (Qltb 100000 (dec_to_Q d) && _); simpl; lra.
Qed.

Lemma scan_patterns_nonneg ps sb rb acc acc' :
  scan_patterns ps sb rb acc = inr acc' -> 0 <= fst acc -> 0 <= fst acc'.
Proof.
  revert acc. induction ps as [|p ps IH]; intros acc H Hacc; simpl in H.
  - injection H as <-. exact Hacc.
  - destruct (bic_hit p sb rb) as [e|hit]; simpl in H; [discriminate|].
    apply (IH _ H). destruct hit; simpl; lra.
Qed.

Lemma scan_keywords_nonneg ks rem acc :
  0 <= fst acc -> 0 <= fst (scan_keywords ks rem acc).
Proof.
  revert acc. induction ks as [|k ks IH]; intros acc Hacc; simpl.
  - exact Hacc.
  - apply IH. destruct (contains k rem); simpl; lra.
Qed.

Lemma pattern_bic_checks_nonneg m acc :
  pattern_bic_checks m = inr acc -> 0 <= fst acc.
Proof.
  unfold pattern_bic_checks.
  destruct (scan_patterns _ _ _ _) as [e|acc0] eqn:E; simpl; [discriminate|].
  intro H. injection H as <-.
  assert (0 <= fst acc0) by (apply (scan_patterns_nonneg _ _ _ _ _ E); simpl; lra).
  destruct (_ && _); simpl; lra.
Qed.

Lemma geo_rules_nonneg cs cr : 0 <= fst (geo_rules cs cr).
Proof.
  unfold geo_rules.
  destruct (mem cs high_risk_countries), (mem cr high_risk_countries),
    (mem cs medium_risk_countries), (mem cr medium_risk_countries),
    (negb (String.eqb cs "")), (negb (String.eqb cr "")); simpl; lra.
Qed.

(** C6: whenever one of the three agents returns a result, its risk score
    lies in [0, 1]. *)
Theorem C6_score_in_unit_interval (a : fraud_agent) (m : message) (r : result)
  (Hres : analyze a m = inr r) :
  0 <= risk_score r /\ risk_score r <= 1.
Proof.
  destruct a; cbn [analyze] in Hres.
  - unfold amount_analyze in Hres.
    destruct (get m "amount" (PStr "0")) as [|amount_str].
    + cbv [ret] in Hres; injection Hres as <-. apply min1_bounds. lra.
    + destruct (py_float (filter_amount amount_str)) as [e|d].
      * cbv [ret] in Hres; injection Hres as <-. apply min1_bounds. lra.
      * destruct (amount_rules d) as [score reasons] eqn:E.
        cbv [ret] in Hres; injection Hres as <-. apply min1_bounds.
        pose proof (amount_rules_nonneg d) as H. rewrite E in H. exact H.
  - unfold pattern_analyze in Hres.
    destruct (pattern_bic_checks m) as [e|acc] eqn:E; cbn [bind] in Hres;
      [discriminate|].
    pose proof (scan_keywords_nonneg suspicious_keywords
                  (lower (remittance_of m)) acc
                  (pattern_bic_checks_nonneg m acc E)) as H.
    destruct (scan_keywords _ _ _) as [score reasons].
    cbv [ret] in Hres; injection Hres as <-. apply min1_bounds. exact H.
  - unfold geo_analyze in Hres.
    destruct (country_of _) as [e|cs]; cbn [bind] in Hres; [discriminate|].
    destruct (country_of _) as [e|cr]; cbn [bind] in Hres; [discriminate|].
    pose proof (geo_rules_nonneg cs cr) as H.
    destruct (geo_rules cs cr) as [score reasons].
    cbv [ret] in Hres; injection Hres as <-. apply min1_bounds. exact H.
Qed.

Lemma C6_score_in_unit_interval_witness :
  let m := [("amount", PStr "15000.00 USD"); ("sender_bic", PStr "TESTUS33XXX");
            ("receiver_bic", PStr "FAKEGB22XXX");
            ("remittance_info", PStr "Urgent payment needed immediately")] in
  let r := mk_result "FraudPatternDetectionAgent" 1
             ["Test/fake pattern detected in BIC: TEST";
              "Test/fake pattern detected in BIC: FAKE";
              "Suspicious keyword in remittance: urgent";
              "Suspicious keyword in remittance: immediately"] None None in
  analyze FraudPatternDetectionAgent m = inr r /\
  (0 <= risk_score r /\ risk_score r <= 1).
Proof.
  intros m r. split.
  - vm_compute. reflexivity.
  - apply (C6_score_in_unit_interval FraudPatternDetectionAgent m r).
    vm_compute. reflexivity.
Defined.

(* ------------------------------------------------------------------ *)
(** ** Unparseable amounts *)

(** Number of decimal points in a string. *)
Fixpoint count_dots (s : string) : nat :=
  match s with
  | EmptyString => 0
  | String c s' => (if Ascii.eqb c "." then 1 else 0) + count_dots s'
  end.

(** Whether a string holds an ASCII digit. *)
Fixpoint has_ascii_digit (s : string) : bool :=
  match s with
  | EmptyString => false
  | String c s' => is_ascii_digit c || has_ascii_digit s'
  end.

Lemma digit_not_dot (c : ascii) : is_ascii_digit c = true -> Ascii.eqb c "." = false.
Proof.
  intro H. destruct (Ascii.eqb c ".") eqn:E; [|reflexivity].
  apply Ascii.eqb_eq in E. subst c. discriminate.
Qed.

Lemma take_digits_dots (s : string) :
  count_dots (snd (take_digits s)) = count_dots s.
Proof.
  induction s as [|c s IH]; simpl; [reflexivity|].
  destruct (is_ascii_digit c) eqn:Ed.
  - destruct (take_digits s) as [ds r]. simpl in *.
    rewrite (digit_not_dot c Ed). simpl. exact IH.
  - reflexivity.
Qed.

Lemma take_digits_no_digit (s : string) :
  has_ascii_digit s = false -> take_digits s = ([], s).
Proof.
  destruct s as [|c s]; simpl; [reflexivity|].
  intro H. apply orb_false_iff in H. destruct H as [Hc _].
  rewrite Hc. reflexivity.
Qed.

Lemma filter_amount_dots (s : string) :
  count_dots (filter_amount s) = count_dots s.
Proof.
  induction s as [|c s IH]; simpl; [reflexivity|].
  destruct (py_isdigit c || Ascii.eqb c ".") eqn:E; simpl;
    destruct (Ascii.eqb c ".") eqn:Ed; simpl; try lia;
    rewrite orb_true_r in E; discriminate.
Qed.

Lemma filter_amount_no_digit (s : string) :
  has_ascii_digit s = false -> has_ascii_digit (filter_amount s) = false.
Proof.
  induction s as [|c s IH]; simpl; [reflexivity|].
  intro H. apply orb_false_iff in H. destruct H as [Hc Hs].
  destruct (py_isdigit c || Ascii.eqb c "."); simpl;
    [rewrite Hc|]; apply IH; exact Hs.
Qed.

Lemma py_float_no_digit (t : string) :
  has_ascii_digit t = false -> exists e, py_float t = inl e.
Proof.
  intro H. unfold py_float. rewrite (take_digits_no_digit t H).
  destruct t as [|c t']; [eexists; reflexivity|].
  simpl in H. apply orb_false_iff in H. destruct H as [_ Ht].
  destruct (Ascii.eqb c "."); [|eexists; reflexivity].
  rewrite (take_digits_no_digit t' Ht).
  destruct t'; eexists; reflexivity.
Qed.

Lemma py_float_two_dots (t : string) :
  (2 <= count_dots t)%nat -> exists e, py_float t = inl e.
Proof.
  intro H. unfold py_float.
  pose proof (take_digits_dots t) as Hd.
  destruct (take_digits t) as [ip rest]. simpl in Hd.
  destruct rest as [|c rest'].
  - simpl in Hd. lia.
  - destruct (Ascii.eqb c ".") eqn:Ec; [|eexists; reflexivity].
    simpl in Hd. rewrite Ec in Hd.
    pose proof (take_digits_dots rest') as Hd'.
    destruct (take_digits rest') as [fp rest'']. simpl in Hd'.
    destruct rest'' as [|c' r''].
    + simpl in Hd'. lia.
    + eexists; reflexivity.
Qed.

(** C8: when the amount is absent, or is a string with no digit, or with two
    decimal points, or whose digits and dots do not parse as a float,
    [FraudAmountDetectionAgent.analyze] returns score 0 with no reasons. *)
Theorem C8_unparseable_amount (m : message)
  (Hamount : dict_lookup m "amount" = None \/
             exists s, dict_lookup m "amount" = Some (PStr s) /\
               (has_ascii_digit s = false \/ (2 <= count_dots s)%nat \/
                exists e, py_float (filter_amount s) = inl e)) :
  amount_analyze m = inr (mk_result "FraudAmountDetectionAgent" 0 [] None None).
Proof.
  unfold amount_analyze, get.
  destruct Hamount as [Hn | [s [Hs Hbad]]].
  - rewrite Hn. vm_compute. reflexivity.
  - rewrite Hs.
    assert (He : exists e, py_float (filter_amount s) = inl e).
    { destruct Hbad as [Hd | [H2 | He]].
      - apply py_float_no_digit, filter_amount_no_digit, Hd.
      - apply py_float_two_dots. rewrite filter_amount_dots. exact H2.
      - exact He. }
    destruct He as [e He]. rewrite He. reflexivity.
Qed.

Lemma C8_unparseable_amount_witness :
  let m := [("message_id", PStr "M1"); ("amount", PStr "1.2.3 USD")] in
  (dict_lookup m "amount" = None \/
   exists s, dict_lookup m "amount" = Some (PStr s) /\
     (has_ascii_digit s = false \/ (2 <= count_dots s)%nat \/
      exists e, py_float (filter_amount s) = inl e)) /\
  amount_analyze m = inr (mk_result "FraudAmountDetectionAgent" 0 [] None None).
Proof.
  intro m.
  assert (H : dict_lookup m "amount" = None \/
     exists s, dict_lookup m "amount" = Some (PStr s) /\
       (has_ascii_digit s = false \/ (2 <= count_dots s)%nat \/
        exists e, py_float (filter_amount s) = inl e)).
  { right. exists "1.2.3 USD". split; [reflexivity|].
    right. left. vm_compute. repeat constructor. }
  split; [exact H|]. exact (C8_unparseable_amount m H).
Defined.

(* ------------------------------------------------------------------ *)
(** ** Pattern agent *)

Lemma inject_nat_S (n : nat) :
  inject_Z (Z.of_nat (S n)) == inject_Z (Z.of_nat n) + 1.
Proof. rewrite Nat2Z.inj_succ. unfold Z.succ. rewrite inject_Z_plus. reflexivity. Qed.

Lemma bic_hit_str (p s r : string) :
  bic_hit p (PStr s) (PStr r) = ret (contains p (upper s) || contains p (upper r)).
Proof. unfold bic_hit. simpl. destruct (contains p (upper s)); reflexivity. Qed.

(** With string codes, the pattern loop adds 0.4 and one reason for every
    pattern found in either upper-cased code. *)
Lemma scan_patterns_str (ps : list string) (s r : string) (acc : Q * list string) :
  let hits := filter (fun p => contains p (upper s) || contains p (upper r)) ps in
  exists score,
    scan_patterns ps (PStr s) (PStr r) acc =
      inr (score, (snd acc ++ map (fun p =>
             String.append "Test/fake pattern detected in BIC: " p) hits)%list) /\
    score == fst acc + (4 # 10) * inject_Z (Z.of_nat (length hits)).
Proof.
  revert acc. induction ps as [|p ps IH]; intro acc; cbn [scan_patterns filter].
  - exists (fst acc). rewrite app_nil_r. split; [destruct acc; reflexivity|].
    cbn [length Z.of_nat fst]. unfold inject_Z. lra.
  - rewrite bic_hit_str. cbn [bind ret].
    destruct (contains p (upper s) || contains p (upper r)); cbv beta iota.
    + destruct (IH (fst acc + (4 # 10),
                    (snd acc ++ [String.append "Test/fake pattern detected in BIC: " p])%list))
        as [score [Hscan Hscore]].
      exists score. rewrite Hscan. cbn [fst snd map length].
      rewrite <- app_assoc. split; [reflexivity|].
      rewrite Hscore. cbn [fst]. rewrite inject_nat_S. lra.
    + apply IH.
Qed.

Lemma scan_keywords_spec (ks : list string) (rem : string) (acc : Q * list string) :
  let found := filter (fun k => contains k rem) ks in
  snd (scan_keywords ks rem acc) =
    (snd acc ++ map (fun k =>
       String.append "Suspicious keyword in remittance: " k) found)%list /\
  fst (scan_keywords ks rem acc) ==
    fst acc + (2 # 10) * inject_Z (Z.of_nat (length found)).
Proof.
  revert acc. induction ks as [|k ks IH]; intro acc; cbn [scan_keywords filter].
  - rewrite app_nil_r. split; [reflexivity|].
    cbn [length Z.of_nat]. unfold inject_Z. lra.
  - destruct (contains k rem); cbv beta iota.
    + destruct (IH (fst acc + (2 # 10),
                    (snd acc ++ [String.append "Suspicious keyword in remittance: " k])%list))
        as [Hr Hs].
      rewrite Hr, Hs. cbn [fst snd map length]. rewrite <- app_assoc.
      split; [reflexivity|]. rewrite inject_nat_S. lra.
    + apply IH.
Qed.

Lemma pattern_bic_checks_str (m : message) (s r : string)
  (Hs : get m "sender_bic" (PStr "") = PStr s)
  (Hr : get m "receiver_bic" (PStr "") = PStr r) :
  let hits := filter (fun p => contains p (upper s) || contains p (upper r))
                high_risk_patterns in
  let same := py_truthy (PStr s) && String.eqb s r in
  exists score,
    pattern_bic_checks m =
      inr (score, (map (fun p =>
             String.append "Test/fake pattern detected in BIC: " p) hits ++
           (if same then ["Same sender and receiver BIC"] else []))%list) /\
    score == (4 # 10) * inject_Z (Z.of_nat (length hits)) +
             (if same then 5 # 10 else 0).
Proof.
  intros hits same. unfold pattern_bic_checks. rewrite Hs, Hr.
  destruct (scan_patterns_str high_risk_patterns s r (0, [])) as [sc [Hscan Hsc]].
  rewrite Hscan. cbn [bind ret fst snd] in *.
  unfold same. cbn [pyval_eqb].
  destruct (py_truthy (PStr s) && String.eqb s r); cbv beta iota.
  - eexists. split; [reflexivity|]. rewrite Hsc. unfold hits. lra.
  - eexists. split; [rewrite app_nil_r; reflexivity|].
    rewrite Hsc. unfold hits. lra.
Qed.

(** C10: an absent or [None] memo is read as the empty string: the keyword
    scan adds nothing, the result is the one of the BIC checks alone, and with
    string identifier codes no exception is raised. *)
Theorem C10_missing_memo (m : message)
  (Hmemo : dict_lookup m "remittance_info" = None \/
           dict_lookup m "remittance_info" = Some PNone) :
  pattern_analyze m = pattern_analyze (("remittance_info", PStr "") :: m) /\
  pattern_analyze m =
    (acc <- pattern_bic_checks m ;;
     ret (analysis "FraudPatternDetectionAgent" (fst acc) (snd acc))) /\
  (forall s r, get m "sender_bic" (PStr "") = PStr s ->
               get m "receiver_bic" (PStr "") = PStr r ->
               exists res, pattern_analyze m = inr res).
Proof.
  assert (Hrem : remittance_of m = "").
  { unfold remittance_of, get. destruct Hmemo as [H | H]; rewrite H; reflexivity. }
  assert (Hbic : pattern_bic_checks (("remittance_info", PStr "") :: m)
                 = pattern_bic_checks m) by reflexivity.
  assert (Hmain : pattern_analyze m =
    (acc <- pattern_bic_checks m ;;
     ret (analysis "FraudPatternDetectionAgent" (fst acc) (snd acc)))).
  { unfold pattern_analyze. rewrite Hrem.
    destruct (pattern_bic_checks m) as [e | [sc rs]]; reflexivity. }
  split; [|split].
  - rewrite Hmain. unfold pattern_analyze. rewrite Hbic.
    destruct (pattern_bic_checks m) as [e | [sc rs]]; reflexivity.
  - exact Hmain.
  - intros s r Hs Hr. rewrite Hmain.
    destruct (pattern_bic_checks_str m s r Hs Hr) as [sc [Hb _]].
    rewrite Hb. eexists. reflexivity.
Qed.

Lemma C10_missing_memo_witness :
  let m := [("message_id", PStr "M1"); ("sender_bic", PStr "TESTUS33XXX");
            ("receiver_bic", PStr "TESTUS33XXX"); ("remittance_info", PNone)] in
  (dict_lookup m "remittance_info" = None \/
   dict_lookup m "remittance_info" = Some PNone) /\
  (pattern_analyze m = pattern_analyze (("remittance_info", PStr "") :: m) /\
   pattern_analyze m =
     (acc <- pattern_bic_checks m ;;
      ret (analysis "FraudPatternDetectionAgent" (fst acc) (snd acc))) /\
   (forall s r, get m "sender_bic" (PStr "") = PStr s ->
                get m "receiver_bic" (PStr "") = PStr r ->
                exists res, pattern_analyze m = inr res)).
Proof.
  intro m.
  assert (H : dict_lookup m "remittance_info" = None \/
              dict_lookup m "remittance_info" = Some PNone)
    by (right; reflexivity).
  split; [exact H|]. exact (C10_missing_memo m H).
Defined.

(** C2 fails: a flagged substring present in both codes is counted once. *)
Lemma C2_counterexample :
  let m := [("message_id", PStr "M1"); ("sender_bic", PStr "TESTUS33XXX");
            ("receiver_bic", PStr "TESTGB22XXX")] in
  ~ (exists r, pattern_analyze m = inr r /\ risk_score r == 8 # 10 /\
       length (filter (contains "TEST") (fraud_reasons r)) = 2%nat).
Proof.
  intros m [r [H [Hs Hl]]]. vm_compute in H. injection H as <-.
  vm_compute in Hl. discriminate.
Qed.

(** C2 (amended): with string identifier codes, each flagged pattern found
    in the upper-cased sender code or in the upper-cased receiver code adds
    +0.4 and one reason naming it, once, even when both codes hold it; the
    result is that, plus 0.5 for equal codes and 0.2 per memo keyword,
    clamped to 1. *)
Theorem C2_flagged_pattern_counted_once (m : message) (s r : string)
  (Hs : get m "sender_bic" (PStr "") = PStr s)
  (Hr : get m "receiver_bic" (PStr "") = PStr r) :
  let hits := filter (fun p => contains p (upper s) || contains p (upper r))
                high_risk_patterns in
  let same := py_truthy (PStr s) && String.eqb s r in
  let found := filter (fun k => contains k (lower (remittance_of m)))
                 suspicious_keywords in
  exists res,
    pattern_analyze m = inr res /\
    fraud_reasons res =
      (map (fun p => String.append "Test/fake pattern detected in BIC: " p) hits ++
       (if same then ["Same sender and receiver BIC"] else []) ++
       map (fun k => String.append "Suspicious keyword in remittance: " k) found)%list /\
    risk_score res ==
      min1 ((4 # 10) * inject_Z (Z.of_nat (length hits)) +
            (if same then 5 # 10 else 0) +
            (2 # 10) * inject_Z (Z.of_nat (length found))).
Proof.
  intros hits same found.
  destruct (pattern_bic_checks_str m s r Hs Hr) as [sc [Hb Hsc]].
  unfold pattern_analyze. rewrite Hb. cbn [bind].
  destruct (scan_keywords_spec suspicious_keywords (lower (remittance_of m))
              (sc, (map (fun p => String.append "Test/fake pattern detected in BIC: " p)
                      hits ++ (if same then ["Same sender and receiver BIC"] else []))%list))
    as [Hrs Hks].
  destruct (scan_keywords _ _ _) as [score reasons].
  cbn [fst snd] in Hrs, Hks.
  eexists. split; [reflexivity|]. cbn [fraud_reasons risk_score analysis].
  split.
  - rewrite Hrs. rewrite app_assoc. reflexivity.
  - apply min1_compat. rewrite Hks, Hsc. subst hits same found. lra.
Qed.

Lemma C2_flagged_pattern_counted_once_witness :
  let m := [("message_id", PStr "M1"); ("sender_bic", PStr "TESTUS33XXX");
            ("receiver_bic", PStr "TESTGB22XXX")] in
  get m "sender_bic" (PStr "") = PStr "TESTUS33XXX" /\
  get m "receiver_bic" (PStr "") = PStr "TESTGB22XXX" /\
  (let hits := filter (fun p => contains p (upper "TESTUS33XXX") ||
                                contains p (upper "TESTGB22XXX"))
                 high_risk_patterns in
   let same := py_truthy (PStr "TESTUS33XXX") && String.eqb "TESTUS33XXX" "TESTGB22XXX" in
   let found := filter (fun k => contains k (lower (remittance_of m)))
                  suspicious_keywords in
   exists res,
     pattern_analyze m = inr res /\
     fraud_reasons res =
       (map (fun p => String.append "Test/fake pattern detected in BIC: " p) hits ++
        (if same then ["Same sender and receiver BIC"] else []) ++
        map (fun k => String.append "Suspicious keyword in remittance: " k) found)%list /\
     risk_score res ==
       min1 ((4 # 10) * inject_Z (Z.of_nat (length hits)) +
             (if same then 5 # 10 else 0) +
             (2 # 10) * inject_Z (Z.of_nat (length found)))).
Proof.
  intro m. split; [reflexivity|]. split; [reflexivity|].
  apply (C2_flagged_pattern_counted_once m "TESTUS33XXX" "TESTGB22XXX");
    reflexivity.
Defined.

(* ------------------------------------------------------------------ *)
(** ** Geographic agent *)

Lemma high_not_medium (x : string) :
  mem x high_risk_countries = true -> mem x medium_risk_countries = false.
Proof.
  unfold mem. intro H. apply existsb_exists in H. destruct H as [y [Hin Heq]].
  apply String.eqb_eq in Heq. subst y.
  simpl in Hin. repeat (destruct Hin as [<- | Hin]; [reflexivity|]). contradiction.
Qed.

Lemma country_code_nonempty (r : string) :
  (6 <= String.length r)%nat ->
  (if (6 <=? String.length r)%nat then upper (substring 4 2 r) else "") <> "".
Proof.
  intro H. apply Nat.leb_le in H. rewrite H.
  do 6 (destruct r as [|? r]; [discriminate|]). simpl. discriminate.
Qed.

Ltac geo_reason_in :=
  cbn [In app];
  split;
  [ let Hin := fresh "Hin" in
    intro Hin; repeat (destruct Hin as [Hin | Hin]); try discriminate;
    try contradiction; reflexivity
  | intro; try discriminate; intuition auto ].

(** C7 (amended): the +0.3 asymmetry bonus is added exactly when both
    extracted country codes are non-empty (both identifier codes have at least
    6 characters) and one code is high-risk while the other is in neither
    set; the score is the clamped sum of the side checks and the bonus; so a
    high-risk sender code with a receiver code taken from a code of at least
    6 characters and in neither set scores 0.4 + 0.3 = 0.7. *)
Theorem C7_asymmetry_bonus (m : message) (s r : string)
  (Hs : get m "sender_bic" (PStr "") = PStr s)
  (Hr : get m "receiver_bic" (PStr "") = PStr r) :
  let cs := if (6 <=? String.length s)%nat then upper (substring 4 2 s) else "" in
  let cr := if (6 <=? String.length r)%nat then upper (substring 4 2 r) else "" in
  let hs := mem cs high_risk_countries in
  let ms := mem cs medium_risk_countries in
  let hr := mem cr high_risk_countries in
  let mr := mem cr medium_risk_countries in
  let bonus := negb (String.eqb cs "") && negb (String.eqb cr "") &&
               ((hs && negb hr && negb mr) || (hr && negb hs && negb ms)) in
  exists res,
    geo_analyze m = inr res /\
    (In (String.append "Unusual risk level combination: " (cs ++ " ? " ++ cr))
        (fraud_reasons res) <-> bonus = true) /\
    risk_score res ==
      min1 ((if hs then 4 # 10 else 0) + (if hr then 4 # 10 else 0) +
            (if ms then 2 # 10 else 0) + (if mr then 2 # 10 else 0) +
            (if bonus then 3 # 10 else 0)) /\
    ((6 <= String.length r)%nat -> hs = true -> hr = false -> mr = false ->
     risk_score res == 7 # 10).
Proof.
  intros cs cr hs ms hr mr bonus.
  pose proof (country_code_nonempty r) as Hcr. fold cr in Hcr.
  unfold geo_analyze. rewrite Hs, Hr.
  change (country_of (PStr s)) with (@ret string cs).
  change (country_of (PStr r)) with (@ret string cr).
  cbn [bind ret]. subst hs ms hr mr bonus. clearbody cs cr.
  unfold geo_rules.
  destruct (mem cs high_risk_countries) eqn:E1,
    (mem cr high_risk_countries) eqn:E2,
    (mem cs medium_risk_countries) eqn:E3,
    (mem cr medium_risk_countries) eqn:E4,
    (String.eqb cs "") eqn:E5, (String.eqb cr "") eqn:E6.
  all: cbv beta iota; cbn [fst snd negb andb orb].
  all: eexists; split; [reflexivity|].
  all: cbn [risk_score fraud_reasons analysis].
  all: split; [geo_reason_in|].
  all: split; [apply min1_compat; lra|].
  all: intros Hlen Hhs Hhr Hmr; try discriminate.
  all: try (rewrite (high_not_medium cs E1) in E3; discriminate).
  all: try (apply String.eqb_eq in E5; subst cs; discriminate).
  all: try (apply String.eqb_eq in E6; exfalso; exact (Hcr Hlen E6)).
  all: vm_compute; reflexivity.
Qed.

Lemma C7_asymmetry_bonus_witness :
  let m := [("message_id", PStr "M1"); ("sender_bic", PStr "BANKIR22XXX");
            ("receiver_bic", PStr "BANKUS33XXX")] in
  get m "sender_bic" (PStr "") = PStr "BANKIR22XXX" /\
  get m "receiver_bic" (PStr "") = PStr "BANKUS33XXX" /\
  (let cs := if (6 <=? String.length "BANKIR22XXX")%nat
             then upper (substring 4 2 "BANKIR22XXX") else "" in
   let cr := if (6 <=? String.length "BANKUS33XXX")%nat
             then upper (substring 4 2 "BANKUS33XXX") else "" in
   let hs := mem cs high_risk_countries in
   let ms := mem cs medium_risk_countries in
   let hr := mem cr high_risk_countries in
   let mr := mem cr medium_risk_countries in
   let bonus := negb (String.eqb cs "") && negb (String.eqb cr "") &&
                ((hs && negb hr && negb mr) || (hr && negb hs && negb ms)) in
   exists res,
     geo_analyze m = inr res /\
     (In (String.append "Unusual risk level combination: " (cs ++ " ? " ++ cr))
         (fraud_reasons res) <-> bonus = true) /\
     risk_score res ==
       min1 ((if hs then 4 # 10 else 0) + (if hr then 4 # 10 else 0) +
             (if ms then 2 # 10 else 0) + (if mr then 2 # 10 else 0) +
             (if bonus then 3 # 10 else 0)) /\
     ((6 <= String.length "BANKUS33XXX")%nat -> hs = true -> hr = false ->
      mr = false -> risk_score res == 7 # 10)).
Proof.
  intro m. split; [reflexivity|]. split; [reflexivity|].
  apply (C7_asymmetry_bonus m "BANKIR22XXX" "BANKUS33XXX"); reflexivity.
Defined.

(** C7 fails: with a receiver code shorter than 6 characters the extracted
    receiver country code is empty, in neither set, yet no bonus is added. *)
Lemma C7_counterexample :
  let m := [("message_id", PStr "M1"); ("sender_bic", PStr "BANKIR22XXX");
            ("receiver_bic", PStr "BANK")] in
  ~ (exists res, geo_analyze m = inr res /\ risk_score res == 7 # 10).
Proof.
  intros m [res [H Hs]]. vm_compute in H. injection H as <-.
  vm_compute in Hs. discriminate.
Qed.

(* ------------------------------------------------------------------ *)
(** ** Coordinator *)

Lemma pyval_eqb_true (a b : pyval) : pyval_eqb a b = true -> a = b.
Proof.
  destruct a, b; simpl; try discriminate; [reflexivity|].
  intro H. apply String.eqb_eq in H. subst. reflexivity.
Qed.

Lemma dict_set_fresh (d : future_table) (k : pyval) (v : nat * message) :
  ~ In k (map fst d) -> dict_set d k v = (d ++ [(k, v)])%list.
Proof.
  induction d as [|[k' v'] d IH]; intro Hk; simpl; [reflexivity|].
  simpl in Hk.
  destruct (pyval_eqb k k') eqn:E.
  - apply pyval_eqb_true in E. subst. exfalso. apply Hk. left. reflexivity.
  - rewrite IH; [reflexivity|]. intro H. apply Hk. right. exact H.
Qed.

(** With present and pairwise distinct message ids, the submission loop
    keeps every message, in input order. *)
Lemma submit_all_distinct (msgs : list message) (ks : list pyval) (i : nat)
  (acc : future_table) :
  map (fun m => dict_lookup m "message_id") msgs = map Some ks ->
  NoDup (map fst acc ++ ks) ->
  exists tbl, submit_all msgs i acc = inr tbl /\
    map (fun e => snd (snd e)) tbl = (map (fun e => snd (snd e)) acc ++ msgs)%list.
Proof.
  revert ks i acc. induction msgs as [|m ms IH]; intros ks i acc Hks Hnd; simpl.
  - exists acc. rewrite app_nil_r. split; reflexivity.
  - destruct ks as [|k ks']; simpl in Hks; [discriminate|].
    injection Hks as Hk Hks'. rewrite Hk.
    rewrite dict_set_fresh.
    + destruct (IH ks' (S i) (acc ++ [(k, (i, m))])%list Hks') as [tbl [Ht Hm]].
      * rewrite map_app. simpl. rewrite <- app_assoc. exact Hnd.
      * exists tbl. split; [exact Ht|]. rewrite Hm. rewrite map_app.
        simpl. rewrite <- app_assoc. reflexivity.
    + intro Hin. apply (NoDup_remove_2 _ _ _ Hnd).
      apply in_or_app. left. exact Hin.
Qed.

(** So with present and distinct ids no message is lost or reordered. *)
Lemma process_batch_distinct_ids (agents : list fraud_agent)
  (timed_out : nat -> nat -> bool) (msgs : list message) (ks : list pyval) :
  map (fun m => dict_lookup m "message_id") msgs = map Some ks ->
  NoDup ks ->
  exists out, process_batch_parallel agents timed_out msgs = inr out /\
    map ann_message out = msgs.
Proof.
  intros Hks Hnd.
  destruct (submit_all_distinct msgs ks 0 [] Hks Hnd) as [tbl [Ht Hm]].
  unfold process_batch_parallel. rewrite Ht. cbn [bind ret].
  eexists. split; [reflexivity|].
  rewrite map_map. simpl in Hm. rewrite <- Hm.
  apply map_ext. intros [k [j m]]. reflexivity.
Qed.

(** The message of [ParallelizationPattern.test_agents]. *)
Definition test_message : message :=
  [("message_id", PStr "TEST001"); ("amount", PStr "15000.00 USD");
   ("sender_bic", PStr "TESTUS33XXX"); ("receiver_bic", PStr "FAKEGB22XXX");
   ("remittance_info", PStr "Urgent payment needed immediately")].

(** C1 fails: when the wait on the geographic agent's future times out, the
    record's results hold only the two other agents (no zero-score slot), and
    the average is taken over two results: 0.75, confidence 75. *)
Theorem C1_timed_out_slot_dropped :
  exists a,
    process_batch_parallel list_of_agents (fun _ j => Nat.eqb j 2)
      [test_message] = inr [a] /\
    map agent (fraud_analysis a) =
      ["FraudAmountDetectionAgent"; "FraudPatternDetectionAgent"] /\
    fraud_score a == 75.
Proof.
  eexists. split; [vm_compute; reflexivity|].
  split; vm_compute; reflexivity.
Qed.

(** C3 fails: two messages with the same id give one output record (the
    later message), and a message without an id aborts the batch with
    [KeyError]. *)
Theorem C3_duplicate_or_missing_id :
  let m1 := [("message_id", PStr "M1"); ("amount", PStr "500 USD")] in
  let m2 := [("message_id", PStr "M1"); ("amount", PStr "20000 USD")] in
  let m3 := [("amount", PStr "700 USD")] in
  (exists out,
     process_batch_parallel list_of_agents (fun _ _ => false) [m1; m2] = inr out /\
     map ann_message out = [m2]) /\
  process_batch_parallel list_of_agents (fun _ _ => false) [m1; m3] = inl KeyError.
Proof.
  intros m1 m2 m3. split.
  - eexists. split; [vm_compute; reflexivity|]. reflexivity.
  - reflexivity.
Qed.

(* ================================================================== *)
(** * Further properties of the code *)

Lemma min1_le (x : Q) : min1 x <= x.
Proof.
  unfold min1. destruct (Qle_bool x 1) eqn:E; [lra|].
  assert (~ x <= 1) by (intro H; apply Qle_bool_iff in H; congruence). lra.
Qed.

Lemma min1_ge (x c : Q) : c <= x -> c <= 1 -> c <= min1 x.
Proof. intros H1 H2. unfold min1. destruct (Qle_bool x 1); assumption. Qed.

Lemma amount_rules_le (d : decimal) : fst (amount_rules d) <= 6 # 10.
Proof.
  unfold amount_rules.
  destruct (Qltb 10000 (dec_to_Q d));
  destruct (Qeq_bool _ 0 && Qltb 0 (dec_to_Q d));
  destruct (Qltb 100000 (dec_to_Q d) && _); simpl; lra.
Qed.

(** The amount scorer never raises and its score lies in [0, 0.6]: the
    three rules add at most 0.3 + 0.2 + 0.1, so the clamp to 1.0 never acts. *)
Theorem amount_analyze_bounds (m : message) :
  exists r, amount_analyze m = inr r /\
    0 <= risk_score r /\ risk_score r <= 6 # 10.
Proof.
  unfold amount_analyze.
  destruct (get m "amount" (PStr "0")) as [|amount_str].
  - eexists. split; [reflexivity|]. cbn [risk_score analysis].
    unfold min1; simpl; lra.
  - destruct (py_float (filter_amount amount_str)) as [e|d].
    + eexists. split; [reflexivity|]. cbn [risk_score analysis].
      unfold min1; simpl; lra.
    + pose proof (amount_rules_nonneg d) as H0. pose proof (amount_rules_le d) as H1.
      destruct (amount_rules d) as [score reasons].
      eexists. split; [reflexivity|]. cbn [risk_score analysis fst] in *.
      pose proof (min1_le score). pose proof (min1_bounds score H0). lra.
Qed.

Lemma geo_rules_le cs cr : fst (geo_rules cs cr) <= 8 # 10.
Proof.
  unfold geo_rules.
  destruct (mem cs high_risk_countries) eqn:Hs;
  [rewrite (high_not_medium cs Hs) | destruct (mem cs medium_risk_countries)];
  destruct (mem cr high_risk_countries) eqn:Hr;
  try rewrite (high_not_medium cr Hr); try destruct (mem cr medium_risk_countries);
  destruct (negb (String.eqb cs "")), (negb (String.eqb cr "")); simpl; lra.
Qed.

Lemma geo_rules_sym cs cr : fst (geo_rules cs cr) == fst (geo_rules cr cs).
Proof.
  unfold geo_rules.
  destruct (mem cs high_risk_countries), (mem cr high_risk_countries),
    (mem cs medium_risk_countries), (mem cr medium_risk_countries),
    (negb (String.eqb cs "")), (negb (String.eqb cr "")); simpl; lra.
Qed.

(** The geographic scorer raises [TypeError] exactly when one of the two
    identifier codes is [None]; otherwise its score lies in [0, 0.8], so the
    clamp to 1.0 never acts. *)
Theorem geo_analyze_raise_or_bound (m : message) :
  match geo_analyze m with
  | inl e => e = TypeError /\
             (get m "sender_bic" (PStr "") = PNone \/
              get m "receiver_bic" (PStr "") = PNone)
  | inr r => get m "sender_bic" (PStr "") <> PNone /\
             get m "receiver_bic" (PStr "") <> PNone /\
             0 <= risk_score r /\ risk_score r <= 8 # 10
  end.
Proof.
  unfold geo_analyze.
  destruct (get m "sender_bic" (PStr "")) as [|s]; cbn [country_of bind].
  - split; [reflexivity|left; reflexivity].
  - destruct (get m "receiver_bic" (PStr "")) as [|r]; cbn [country_of bind ret].
    + split; [reflexivity|right; reflexivity].
    + set (cs := if (6 <=? String.length s)%nat then upper (substring 4 2 s) else "").
      set (cr := if (6 <=? String.length r)%nat then upper (substring 4 2 r) else "").
      pose proof (geo_rules_nonneg cs cr) as H0. pose proof (geo_rules_le cs cr) as H1.
      destruct (geo_rules cs cr) as [score reasons]. cbv [ret].
      cbn [risk_score analysis fst] in *.
      pose proof (min1_le score). pose proof (min1_bounds score H0).
      split; [discriminate|]. split; [discriminate|]. lra.
Qed.

(** Swapping the sender and receiver identifier codes leaves the
    geographic score unchanged (or raises the same exception). *)
Theorem geo_score_symmetric (m : message) :
  match geo_analyze m, geo_analyze (swap_bics m) with
  | inr r1, inr r2 => risk_score r1 == risk_score r2
  | inl e1, inl e2 => e1 = e2
  | _, _ => False
  end.
Proof.
  unfold geo_analyze, swap_bics. cbn [get dict_lookup String.eqb Ascii.eqb Bool.eqb andb].
  unfold get.
  destruct (dict_lookup m "sender_bic") as [[|s]|], (dict_lookup m "receiver_bic") as [[|r]|];
    cbn [country_of bind ret]; try reflexivity;
    match goal with
    | |- context [geo_rules ?a ?b] =>
        pose proof (geo_rules_sym a b) as Hsym;
        destruct (geo_rules a b) as [x1 y1]; destruct (geo_rules b a) as [x2 y2]
    end; cbv [ret]; cbn [risk_score analysis fst] in *;
    apply min1_compat; exact Hsym.
Qed.

Lemma scan_patterns_swap (ps : list string) (s r : string) (acc : Q * list string) :
  scan_patterns ps (PStr r) (PStr s) acc = scan_patterns ps (PStr s) (PStr r) acc.
Proof.
  revert acc. induction ps as [|p ps IH]; intro acc; cbn [scan_patterns]; [reflexivity|].
  rewrite !bic_hit_str. cbn [bind ret]. rewrite orb_comm. apply IH.
Qed.

Lemma remittance_of_swap (m : message) : remittance_of (swap_bics m) = remittance_of m.
Proof. reflexivity. Qed.

(** With string codes, swapping the sender and receiver codes leaves the
    pattern scorer's result, score and reasons, unchanged. *)
Theorem pattern_analyze_symmetric (m : message) (s r : string)
  (Hs : get m "sender_bic" (PStr "") = PStr s)
  (Hr : get m "receiver_bic" (PStr "") = PStr r) :
  pattern_analyze (swap_bics m) = pattern_analyze m.
Proof.
  unfold pattern_analyze, pattern_bic_checks.
  rewrite remittance_of_swap.
  replace (get (swap_bics m) "sender_bic" (PStr "")) with (PStr r)
    by (unfold swap_bics; cbn; rewrite Hr; reflexivity).
  replace (get (swap_bics m) "receiver_bic" (PStr "")) with (PStr s)
    by (unfold swap_bics; cbn; rewrite Hs; reflexivity).
  rewrite Hs, Hr, scan_patterns_swap.
  cbn [py_truthy pyval_eqb].
  replace (String.eqb r s) with (String.eqb s r) by apply String.eqb_sym.
  destruct (String.eqb s r) eqn:E.
  - apply String.eqb_eq in E. subst r. reflexivity.
  - rewrite !andb_false_r. reflexivity.
Qed.

Lemma pattern_analyze_symmetric_witness :
  let m := [("sender_bic", PStr "TESTUS33XXX"); ("receiver_bic", PStr "DEUTDEFF");
            ("remittance_info", PStr "urgent")] in
  get m "sender_bic" (PStr "") = PStr "TESTUS33XXX" /\
  get m "receiver_bic" (PStr "") = PStr "DEUTDEFF" /\
  pattern_analyze (swap_bics m) = pattern_analyze m.
Proof.
  intro m. split; [reflexivity|]. split; [reflexivity|].
  apply (pattern_analyze_symmetric m "TESTUS33XXX" "DEUTDEFF"); reflexivity.
Defined.

Lemma scan_patterns_none_receiver (ps : list string) (s : string) (acc : Q * list string) :
  match scan_patterns ps (PStr s) PNone acc with
  | inl e => e = AttributeError /\
             existsb (fun p => negb (contains p (upper s))) ps = true
  | inr _ => existsb (fun p => negb (contains p (upper s))) ps = false
  end.
Proof.
  revert acc. induction ps as [|p ps IH]; intro acc; cbn [scan_patterns existsb];
    [reflexivity|].
  unfold bic_hit. cbn [py_upper bind ret].
  destruct (contains p (upper s)); cbn [negb orb]; [apply IH|].
  split; reflexivity.
Qed.

(** A [None] sender code makes the pattern scorer raise [AttributeError];
    a [None] receiver code with a string sender code makes it raise exactly
    when some flagged substring is missing from the upper-cased sender code:
    the [or] only reads the receiver code then. *)
Theorem pattern_analyze_none_bic (m : message) :
  (get m "sender_bic" (PStr "") = PNone ->
   pattern_analyze m = inl AttributeError) /\
  (forall s, get m "sender_bic" (PStr "") = PStr s ->
   get m "receiver_bic" (PStr "") = PNone ->
   (pattern_analyze m = inl AttributeError <->
    existsb (fun p => negb (contains p (upper s))) high_risk_patterns = true)).
Proof.
  split.
  - intro Hs. unfold pattern_analyze, pattern_bic_checks. rewrite Hs. reflexivity.
  - intros s Hs Hr. unfold pattern_analyze, pattern_bic_checks. rewrite Hs, Hr.
    pose proof (scan_patterns_none_receiver high_risk_patterns s (0, [])) as H.
    destruct (scan_patterns high_risk_patterns (PStr s) PNone (0, [])) as [e|acc].
    + destruct H as [-> H]. cbn [bind]. split; [intros _; exact H|reflexivity].
    + rewrite H. split; intro Hc; [exfalso|discriminate Hc].
      cbn [bind ret] in Hc.
      match type of Hc with
      | context [scan_keywords ?a ?b ?c] => destruct (scan_keywords a b c)
      end.
      discriminate Hc.
Qed.

Lemma pattern_analyze_none_bic_witness :
  let m := [("sender_bic", PStr "TESTUS33XXX"); ("receiver_bic", PNone)] in
  pattern_analyze m = inl AttributeError.
Proof.
  intro m.
  apply (proj2 (proj2 (pattern_analyze_none_bic m) "TESTUS33XXX" eq_refl eq_refl)).
  reflexivity.
Defined.




Lemma analyze_result_shape (a : fraud_agent) (m : message) (r : result) :
  analyze a m = inr r ->
  agent r = class_name a /\ r_error r = None /\
  0 <= risk_score r /\ risk_score r <= 1.
Proof.
  intro Hres. destruct a; cbn [analyze] in Hres.
  - unfold amount_analyze in Hres.
    destruct (get m "amount" (PStr "0")) as [|amount_str].
    + cbv [ret] in Hres; injection Hres as <-.
      split; [reflexivity|split; [reflexivity|]]. apply min1_bounds. lra.
    + destruct (py_float (filter_amount amount_str)) as [e|d].
      * cbv [ret] in Hres; injection Hres as <-.
        split; [reflexivity|split; [reflexivity|]]. apply min1_bounds. lra.
      * pose proof (amount_rules_nonneg d) as H.
        destruct (amount_rules d) as [score reasons].
        cbv [ret] in Hres; injection Hres as <-.
        split; [reflexivity|split; [reflexivity|]]. apply min1_bounds. exact H.
  - unfold pattern_analyze in Hres.
    destruct (pattern_bic_checks m) as [e|acc] eqn:E; cbn [bind] in Hres;
      [discriminate|].
    pose proof (scan_keywords_nonneg suspicious_keywords
                  (lower (remittance_of m)) acc
                  (pattern_bic_checks_nonneg m acc E)) as H.
    destruct (scan_keywords _ _ _) as [score reasons].
    cbv [ret] in Hres; injection Hres as <-.
    split; [reflexivity|split; [reflexivity|]]. apply min1_bounds. exact H.
  - unfold geo_analyze in Hres.
    destruct (country_of _) as [e|cs]; cbn [bind] in Hres; [discriminate|].
    destruct (country_of _) as [e|cr]; cbn [bind] in Hres; [discriminate|].
    pose proof (geo_rules_nonneg cs cr) as H.
    destruct (geo_rules cs cr) as [score reasons].
    cbv [ret] in Hres; injection Hres as <-.
    split; [reflexivity|split; [reflexivity|]]. apply min1_bounds. exact H.
Qed.

Lemma process_message_shape (m : message) (a : fraud_agent) :
  let r := process_message m a in
  agent r = class_name a /\ 0 <= risk_score r /\ risk_score r <= 1 /\
  (r_error r = None <-> exists r', analyze a m = inr r') /\
  (r_error r <> None -> risk_score r = 0 /\ fraud_reasons r = [] /\ r_message_id r = None).
Proof.
  cbv zeta. unfold process_message.
  destruct (analyze a m) as [e|r'] eqn:E; cbn [agent risk_score r_error fraud_reasons r_message_id].
  - split; [reflexivity|]. split; [lra|]. split; [lra|].
    split; [split; [discriminate|intros [r' H]; discriminate H]|].
    intros _. repeat split.
  - destruct (analyze_result_shape a m r' E) as [Ha [He Hb]].
    split; [exact Ha|]. split; [apply Hb|]. split; [apply Hb|].
    split; [split; [intros _; exists r'; reflexivity|intros _; exact He]|].
    intro Hc. contradiction.
Qed.

(** [_process_message] always returns a result named by the agent's class,
    with a score in [0, 1]; it carries an error exactly when [analyze]
    raised, and then its score is 0, its reasons empty and it has no message
    id. *)
Theorem process_message_slot (m : message) (a : fraud_agent) :
  let r := process_message m a in
  agent r = class_name a /\ 0 <= risk_score r /\ risk_score r <= 1 /\
  (r_error r = None <-> exists r', analyze a m = inr r') /\
  (r_error r <> None -> risk_score r = 0 /\ fraud_reasons r = [] /\ r_message_id r = None).
Proof. apply process_message_shape. Qed.

Lemma wait_results_no_timeout (i j : nat) (m : message) (agents : list fraud_agent) :
  wait_results (fun _ _ => false) i j m agents = map (process_message m) agents.
Proof.
  revert j. induction agents as [|a agents IH]; intro j; cbn [wait_results map];
    [reflexivity|]. rewrite IH. reflexivity.
Qed.

Lemma wait_results_incl (t : nat -> nat -> bool) (i j : nat) (m : message)
  (agents : list fraud_agent) (r : result) :
  In r (wait_results t i j m agents) -> exists a, In a agents /\ r = process_message m a.
Proof.
  revert j. induction agents as [|a agents IH]; intros j Hin; cbn [wait_results] in Hin;
    [contradiction|].
  destruct (t i j).
  - destruct (IH _ Hin) as [a' [Ha' ->]]. exists a'. split; [right; exact Ha'|reflexivity].
  - destruct Hin as [<- | Hin].
    + exists a. split; [left; reflexivity|reflexivity].
    + destruct (IH _ Hin) as [a' [Ha' ->]]. exists a'. split; [right; exact Ha'|reflexivity].
Qed.

Lemma batch_out (agents : list fraud_agent) (t : nat -> nat -> bool)
  (msgs : list message) (out : list annotated) (x : annotated) :
  process_batch_parallel agents t msgs = inr out -> In x out ->
  exists i m, x = collect_message agents t (PNone, (i, m)).
Proof.
  unfold process_batch_parallel. destruct (submit_all msgs 0 []) as [e|tbl]; cbn [bind ret];
    intros H Hin; [discriminate|]. injection H as <-.
  apply in_map_iff in Hin. destruct Hin as [[k [i m]] [<- _]].
  exists i, m. reflexivity.
Qed.

(** When no wait times out, every record of [process_batch_parallel] holds
    one result per agent, in the order of the agent list. *)
Theorem batch_no_timeout_agent_order (agents : list fraud_agent)
  (msgs : list message) (out : list annotated)
  (H : process_batch_parallel agents (fun _ _ => false) msgs = inr out) :
  Forall (fun x => map agent (fraud_analysis x) = map class_name agents) out.
Proof.
  apply Forall_forall. intros x Hin.
  destruct (batch_out _ _ _ _ _ H Hin) as [i [m ->]].
  cbn [collect_message fraud_analysis]. rewrite wait_results_no_timeout, map_map.
  apply map_ext. intro a. apply (process_message_shape m a).
Qed.

Lemma batch_no_timeout_agent_order_witness :
  let msgs := [[("message_id", PStr "M1"); ("amount", PStr "20000 USD");
                ("sender_bic", PStr "DEUTDEFF"); ("receiver_bic", PStr "CHASUS33")]] in
  exists out,
    process_batch_parallel list_of_agents (fun _ _ => false) msgs = inr out /\
    Forall (fun x => map agent (fraud_analysis x) = map class_name list_of_agents) out.
Proof.
  intro msgs. eexists. split; [vm_compute; reflexivity|].
  apply (batch_no_timeout_agent_order list_of_agents msgs).
  vm_compute. reflexivity.
Defined.

Lemma round_ge_floor (x : Q) :
  (Qfloor x <= round_half_even x <= Qfloor x + 1)%Z.
Proof.
  unfold round_half_even.
  destruct (Qcompare _ _); [destruct (Z.even _)|..]; lia.
Qed.

Lemma round_ge_int (x : Q) (n : Z) : inject_Z n <= x -> (n <= round_half_even x)%Z.
Proof.
  intro H. pose proof (Qfloor_resp_le _ _ H) as Hf. rewrite Qfloor_Z in Hf.
  pose proof (round_ge_floor x). lia.
Qed.

Lemma round_le_int (x : Q) (n : Z) : x <= inject_Z n -> (round_half_even x <= n)%Z.
Proof.
  intro H. pose proof (Qfloor_resp_le _ _ H) as Hf. rewrite Qfloor_Z in Hf.
  pose proof (round_ge_floor x) as Hr.
  destruct (Z.eq_dec (Qfloor x) n) as [Heq|Hne]; [|lia].
  unfold round_half_even. rewrite Heq.
  pose proof (Qfloor_le x) as Hl. rewrite Heq in Hl.
  assert (Hlt : x - inject_Z n < 1 # 2) by lra.
  assert (Hc : Qcompare (x - inject_Z n) (1 # 2) = Lt)
    by (apply Qlt_alt; exact Hlt).
  rewrite Hc. lia.
Qed.

Lemma pow10_pos (nd : nat) : 0 < inject_Z (10 ^ Z.of_nat nd).
Proof.
  change 0 with (inject_Z 0). rewrite <- Zlt_Qlt. apply Z.pow_pos_nonneg; lia.
Qed.

Lemma py_round_ge (x lo : Q) (nd : nat) (a : Z) :
  inject_Z a == lo * inject_Z (10 ^ Z.of_nat nd) -> lo <= x -> lo <= py_round x nd.
Proof.
  intros Ha Hx. unfold py_round. pose proof (pow10_pos nd) as Hp.
  apply Qle_shift_div_l; [exact Hp|]. rewrite <- Ha. rewrite <- Zle_Qle.
  apply round_ge_int. rewrite Ha. apply Qmult_le_compat_r; [exact Hx|lra].
Qed.

Lemma py_round_le (x hi : Q) (nd : nat) (b : Z) :
  inject_Z b == hi * inject_Z (10 ^ Z.of_nat nd) -> x <= hi -> py_round x nd <= hi.
Proof.
  intros Hb Hx. unfold py_round. pose proof (pow10_pos nd) as Hp.
  apply Qle_shift_div_r; [exact Hp|]. rewrite <- Hb. rewrite <- Zle_Qle.
  apply round_le_int. rewrite Hb. apply Qmult_le_compat_r; [exact Hx|lra].
Qed.

Lemma sum_scores_bounds (rs : list result) :
  Forall (fun r => 0 <= risk_score r /\ risk_score r <= 1) rs ->
  0 <= fold_right Qplus 0 (map risk_score rs) /\
  fold_right Qplus 0 (map risk_score rs) <= inject_Z (Z.of_nat (length rs)).
Proof.
  induction rs as [|r rs IH]; intro H; cbn [fold_right map length].
  - unfold inject_Z. simpl. lra.
  - inversion H as [|? ? Hr Hrs]; subst. destruct (IH Hrs).
    rewrite inject_nat_S. lra.
Qed.

Lemma aggregate_bounds_aux (rs : list result) :
  Forall (fun r => 0 <= risk_score r /\ risk_score r <= 1) rs ->
  let v := aggregate_results rs in
  0 <= confidence v /\ confidence v <= 100 /\
  0 <= total_risk_score v /\ total_risk_score v <= 1 /\
  (is_fraudulent v = true -> 50 <= confidence v /\ 1 # 2 <= total_risk_score v) /\
  (is_fraudulent v = false -> confidence v <= 50 /\ total_risk_score v <= 1 # 2).
Proof.
  intro Hrs. cbv zeta. destruct rs as [|r0 rs'].
  - cbn. repeat split; try discriminate; lra.
  - set (rs := r0 :: rs') in *.
    change (aggregate_results rs) with
      (mk_verdict
         (Qle_bool threshold (py_sum (map risk_score rs) /
                              inject_Z (Z.of_nat (length rs))))
         (py_round (py_sum (map risk_score rs) /
                    inject_Z (Z.of_nat (length rs)) * 100) 2)
         (py_round (py_sum (map risk_score rs) /
                    inject_Z (Z.of_nat (length rs))) 3)
         (collect_reasons rs)).
    cbn [is_fraudulent confidence total_risk_score].
    set (avg := py_sum (map risk_score rs) / inject_Z (Z.of_nat (length rs))).
    assert (Hn : 0 < inject_Z (Z.of_nat (length rs))).
    { change 0 with (inject_Z 0). rewrite <- Zlt_Qlt. simpl. lia. }
    destruct (sum_scores_bounds rs Hrs) as [Hs0 Hs1].
    rewrite <- py_sum_fold_right in Hs0, Hs1.
    assert (Ha0 : 0 <= avg) by (apply Qle_shift_div_l; [exact Hn|lra]).
    assert (Ha1 : avg <= 1) by (apply Qle_shift_div_r; [exact Hn|lra]).
    assert (E100 : inject_Z 10000 == 100 * inject_Z (10 ^ Z.of_nat 2)) by reflexivity.
    assert (E50 : inject_Z 5000 == 50 * inject_Z (10 ^ Z.of_nat 2)) by reflexivity.
    assert (E0 : inject_Z 0 == 0 * inject_Z (10 ^ Z.of_nat 2)) by reflexivity.
    assert (F1 : inject_Z 1000 == 1 * inject_Z (10 ^ Z.of_nat 3)) by reflexivity.
    assert (Fh : inject_Z 500 == (1 # 2) * inject_Z (10 ^ Z.of_nat 3)) by reflexivity.
    assert (F0 : inject_Z 0 == 0 * inject_Z (10 ^ Z.of_nat 3)) by reflexivity.
    split; [apply (py_round_ge _ _ _ _ E0); lra|].
    split; [apply (py_round_le _ _ _ _ E100); lra|].
    split; [apply (py_round_ge _ _ _ _ F0); lra|].
    split; [apply (py_round_le _ _ _ _ F1); lra|].
    split.
    + intro Hf. apply Qle_bool_iff in Hf. unfold threshold in Hf.
      split; [apply (py_round_ge _ _ _ _ E50); lra|apply (py_round_ge _ _ _ _ Fh); lra].
    + intro Hf. assert (Hlt : ~ threshold <= avg)
        by (intro Hc; apply Qle_bool_iff in Hc; congruence).
      unfold threshold in Hlt.
      split; [apply (py_round_le _ _ _ _ E50); lra|apply (py_round_le _ _ _ _ Fh); lra].
Qed.

(** For scores in [0, 1], [aggregate_results] gives a confidence in
    [0, 100] and a total risk score in [0, 1]; a fraudulent verdict has
    confidence at least 50 and total at least 0.5, a clean one at most 50
    and 0.5. *)
Theorem aggregate_results_bounds (rs : list result)
  (Hrs : Forall (fun r => 0 <= risk_score r /\ risk_score r <= 1) rs) :
  let v := aggregate_results rs in
  0 <= confidence v /\ confidence v <= 100 /\
  0 <= total_risk_score v /\ total_risk_score v <= 1 /\
  (is_fraudulent v = true -> 50 <= confidence v /\ 1 # 2 <= total_risk_score v) /\
  (is_fraudulent v = false -> confidence v <= 50 /\ total_risk_score v <= 1 # 2).
Proof. exact (aggregate_bounds_aux rs Hrs). Qed.

(** For any agent list and any timeouts, every record of
    [process_batch_parallel] has a fraud score in [0, 100], at least 50 when
    FRAUDULENT and at most 50 when CLEAN. *)
Theorem batch_scores_bounded (agents : list fraud_agent) (t : nat -> nat -> bool)
  (msgs : list message) (out : list annotated)
  (H : process_batch_parallel agents t msgs = inr out) :
  Forall (fun x => 0 <= fraud_score x /\ fraud_score x <= 100 /\
            (fraud_status x = "FRAUDULENT" -> 50 <= fraud_score x) /\
            (fraud_status x = "CLEAN" -> fraud_score x <= 50)) out.
Proof.
  apply Forall_forall. intros x Hin.
  destruct (batch_out _ _ _ _ _ H Hin) as [i [m ->]].
  cbn [collect_message fraud_score fraud_status].
  assert (Hrs : Forall (fun r => 0 <= risk_score r /\ risk_score r <= 1)
                  (wait_results t i 0 m agents)).
  { apply Forall_forall. intros r Hr.
    destruct (wait_results_incl _ _ _ _ _ _ Hr) as [a [_ ->]].
    destruct (process_message_shape m a) as [_ [H0 [H1 _]]]. split; assumption. }
  destruct (aggregate_bounds_aux _ Hrs) as [B0 [B1 [_ [_ [Bt Bf]]]]].
  split; [exact B0|]. split; [exact B1|].
  destruct (is_fraudulent (aggregate_results (wait_results t i 0 m agents))).
  - split; [intros _; apply Bt; reflexivity|intro Hc; discriminate Hc].
  - split; [intro Hc; discriminate Hc|intros _; apply Bf; reflexivity].
Qed.

Lemma batch_scores_bounded_witness :
  let msgs := [[("message_id", PStr "M1"); ("amount", PStr "20000 USD");
                ("sender_bic", PStr "TESTIR33"); ("receiver_bic", PStr "CHASUS33")]] in
  exists out,
    process_batch_parallel list_of_agents (fun _ j => Nat.eqb j 2) msgs = inr out /\
    Forall (fun x => 0 <= fraud_score x /\ fraud_score x <= 100 /\
              (fraud_status x = "FRAUDULENT" -> 50 <= fraud_score x) /\
              (fraud_status x = "CLEAN" -> fraud_score x <= 50)) out.
Proof.
  intro msgs. eexists. split; [vm_compute; reflexivity|].
  apply (batch_scores_bounded list_of_agents (fun _ j => Nat.eqb j 2) msgs).
  vm_compute. reflexivity.
Defined.

Lemma aggregate_results_bounds_witness :
  let rs := [mk_result "FraudAmountDetectionAgent" (1 # 2) [] None None;
             mk_result "FraudPatternDetectionAgent" 1 [] None None] in
  Forall (fun r => 0 <= risk_score r /\ risk_score r <= 1) rs /\
  0 <= confidence (aggregate_results rs) /\ confidence (aggregate_results rs) <= 100.
Proof.
  intro rs.
  assert (Hrs : Forall (fun r => 0 <= risk_score r /\ risk_score r <= 1) rs).
  { apply Forall_cons; [cbn; split; lra|].
    apply Forall_cons; [cbn; split; lra|]. apply Forall_nil. }
  split; [exact Hrs|].
  destruct (aggregate_results_bounds rs Hrs) as [H0 [H1 _]].
  split; [exact H0|exact H1].
Defined.

Lemma Qltb_true (x y : Q) : Qltb x y = true <-> x < y.
Proof.
  unfold Qltb. destruct (Qle_bool y x) eqn:E; cbn [negb].
  - apply Qle_bool_iff in E. split; [discriminate|intro H; lra].
  - split; [intros _|reflexivity].
    apply Qnot_le_lt. intro H. apply Qle_bool_iff in H. congruence.
Qed.

(** Every message kept by the high-value filter of
    [process_with_orchestrator_worker] gets from the amount scorer a score of
    at least 0.3 and a ['High amount transaction'] reason. *)
Theorem high_value_amount_flagged (ms : list message) (m : message)
  (Hin : In m (high_value_messages ms)) :
  exists r s, amount_analyze m = inr r /\ 3 # 10 <= risk_score r /\
    In ("High amount transaction: " ++ s) (fraud_reasons r).
Proof.
  unfold high_value_messages in Hin. apply filter_In in Hin as [_ Hsel].
  unfold amount_analyze.
  destruct (get m "amount" (PStr "0")) as [|a]; cbn [parse_amount] in Hsel;
    [discriminate|].
  destruct (py_float (filter_amount a)) as [e|d]; [discriminate|].
  apply Qltb_true in Hsel.
  assert (H10 : Qltb 10000 (dec_to_Q d) = true) by (apply Qltb_true; lra).
  unfold amount_rules. cbv zeta. rewrite H10. cbn [fst snd].
  destruct (Qeq_bool _ 0 && Qltb 0 (dec_to_Q d));
  destruct (Qltb 100000 (dec_to_Q d) && _); cbn [fst snd app];
    do 2 eexists; (split; [reflexivity|]); cbn [risk_score fraud_reasons analysis];
    (split; [apply min1_ge; lra|left; reflexivity]).
Qed.

Lemma high_value_amount_flagged_witness :
  let m := [("message_id", PStr "M1"); ("amount", PStr "75000.00 USD")] in
  In m (high_value_messages [m]) /\
  exists r s, amount_analyze m = inr r /\ 3 # 10 <= risk_score r /\
    In ("High amount transaction: " ++ s) (fraud_reasons r).
Proof.
  intro m.
  assert (Hin : In m (high_value_messages [m])) by (vm_compute; left; reflexivity).
  split; [exact Hin|]. exact (high_value_amount_flagged [m] m Hin).
Defined.






Lemma if_nil_true {A : Type} (b : bool) (x : A) :
  (if b then [] else [x]) = [] -> b = true.
Proof. destruct b; [reflexivity|discriminate]. Qed.

Lemma if_nil_false {A : Type} (b : bool) (x : A) :
  (if b then [x] else []) = [] -> b = false.
Proof. destruct b; [discriminate|reflexivity]. Qed.

Lemma flat_map_nil {A B : Type} (f : A -> list B) (l : list A) :
  flat_map f l = [] -> forall x, In x l -> f x = [].
Proof.
  induction l as [|y l IH]; intros H x Hx; [contradiction|].
  cbn [flat_map] in H. apply app_eq_nil in H as [H1 H2].
  destruct Hx as [<- | Hx]; [exact H1|exact (IH H2 x Hx)].
Qed.

Lemma valid_bic_str (b : pyval) :
  validate_bic b = true -> exists s, b = PStr s /\ String.eqb s "" = false.
Proof.
  destruct b as [|s]; [discriminate|]. unfold validate_bic.
  destruct (String.eqb s "") eqn:E; [discriminate|]. intros _. exists s. split; [reflexivity|exact E].
Qed.

Lemma evaluate_valid_facts (m : message) (errs : list string) :
  evaluate_message m = inr (true, errs) ->
  errs = [] /\
  Forall (fun f => missing_field m f = false) required_fields /\
  pyval_in (get m "message_type" PNone) valid_message_types = true /\
  (exists ref, get m "reference" (PStr "") = PStr ref /\
               (String.length ref <= max_reference_length)%nat) /\
  (exists s tok rest d cur,
     dict_lookup m "amount" = Some (PStr s) /\ py_split s = tok :: rest /\
     py_float (filter_amount tok) = inr d /\
     min_amount <= dec_to_Q d /\ dec_to_Q d <= max_amount /\
     py_last (py_split s) = Some cur /\ mem cur valid_currencies = true) /\
  validate_bic (get m "sender_bic" (PStr "")) = true /\
  validate_bic (get m "receiver_bic" (PStr "")) = true /\
  get m "sender_bic" (PStr "") <> get m "receiver_bic" (PStr "").
Proof.
  intro H. unfold evaluate_message in H. cbv zeta in H.
  destruct (get m "reference" (PStr "")) as [|ref] eqn:Eref; [discriminate|].
  cbv [ret] in H. injection H as Hb Herrs.
  apply Nat.eqb_eq, length_zero_iff_nil in Hb.
  rewrite Hb in Herrs.
  apply app_eq_nil in Hb as [Hb Hcur].
  apply app_eq_nil in Hb as [Hb Hsame].
  apply app_eq_nil in Hb as [Hb Hbic]. apply app_eq_nil in Hbic as [Hsb Hrb].
  apply app_eq_nil in Hb as [Hb Hamt].
  apply app_eq_nil in Hb as [Hb Href].
  apply app_eq_nil in Hb as [Hreq Htype].
  apply if_nil_true in Htype, Hsb, Hrb. apply if_nil_false in Href, Hsame.
  assert (Hreq' : Forall (fun f => missing_field m f = false) required_fields).
  { change (flat_map (fun field =>
              if missing_field m field then ["Missing required field: " ++ field]
              else []) required_fields = []) in Hreq.
    apply Forall_forall. intros f Hf. pose proof (flat_map_nil _ _ Hreq f Hf) as Hf'.
    cbv beta in Hf'. apply if_nil_false in Hf'. exact Hf'. }
  split; [symmetry; exact Herrs|]. split; [exact Hreq'|]. split; [exact Htype|].
  split; [exists ref; split; [reflexivity|apply Nat.ltb_ge; exact Href]|].
  split.
  - assert (Hmiss : missing_field m "amount" = false)
      by (rewrite Forall_forall in Hreq'; apply Hreq'; simpl; tauto).
    unfold missing_field in Hmiss.
    destruct (dict_lookup m "amount") as [[|s]|] eqn:Ea; try discriminate.
    unfold amount_errors in Hamt. unfold get in Hamt. rewrite Ea in Hamt.
    destruct (py_split s) as [|tok rest] eqn:Es; [discriminate|].
    destruct (py_float (filter_amount tok)) as [e|d] eqn:Ed; [discriminate|].
    destruct (Qltb max_amount (dec_to_Q d)) eqn:Emax; [discriminate|].
    destruct (Qltb (dec_to_Q d) min_amount) eqn:Emin; [discriminate|].
    unfold currency_errors in Hcur. rewrite Ea in Hcur.
    destruct (py_last (py_split s)) as [cur|] eqn:El; [|discriminate].
    apply if_nil_true in Hcur.
    exists s, tok, rest, d, cur.
    split; [first [reflexivity|assumption]|].
    split; [first [reflexivity|assumption]|].
    split; [first [reflexivity|assumption]|].
    split; [apply Qnot_lt_le; intro Hc; apply Qltb_true in Hc; congruence|].
    split; [apply Qnot_lt_le; intro Hc; apply Qltb_true in Hc; congruence|].
    split; [first [reflexivity|assumption]|exact Hcur].
  - split; [exact Hsb|]. split; [exact Hrb|].
    destruct (valid_bic_str _ Hsb) as [s [Es Es0]]. rewrite Es in *.
    cbn [py_truthy] in Hsame. rewrite Es0 in Hsame. cbn [negb andb] in Hsame.
    intro Heq. rewrite <- Heq in Hsame. cbn [pyval_eqb] in Hsame.
    rewrite String.eqb_refl in Hsame. discriminate.
Qed.

(** A message [evaluate_message] accepts has no errors, every required field
    truthy, a known message type, a reference of at most 16 characters, an
    amount whose first token parses into [0.01, 999999999.99] and whose last
    token is a known currency, and two valid, distinct identifier codes. *)
Theorem evaluate_message_valid (m : message) (errs : list string)
  (H : evaluate_message m = inr (true, errs)) :
  errs = [] /\
  Forall (fun f => missing_field m f = false) required_fields /\
  pyval_in (get m "message_type" PNone) valid_message_types = true /\
  (exists ref, get m "reference" (PStr "") = PStr ref /\
               (String.length ref <= max_reference_length)%nat) /\
  (exists s tok rest d cur,
     dict_lookup m "amount" = Some (PStr s) /\ py_split s = tok :: rest /\
     py_float (filter_amount tok) = inr d /\
     min_amount <= dec_to_Q d /\ dec_to_Q d <= max_amount /\
     py_last (py_split s) = Some cur /\ mem cur valid_currencies = true) /\
  validate_bic (get m "sender_bic" (PStr "")) = true /\
  validate_bic (get m "receiver_bic" (PStr "")) = true /\
  get m "sender_bic" (PStr "") <> get m "receiver_bic" (PStr "").
Proof. exact (evaluate_valid_facts m errs H). Qed.



Lemma evaluate_message_valid_witness :
  let m := [("message_id", PStr "M1"); ("message_type", PStr "MT103");
            ("reference", PStr "REF0001"); ("amount", PStr "1000.00 USD");
            ("sender_bic", PStr "DEUTDEFF"); ("receiver_bic", PStr "CHASUS33XXX")] in
  evaluate_message m = inr (true, []) /\
  validate_bic (get m "sender_bic" (PStr "")) = true /\
  get m "sender_bic" (PStr "") <> get m "receiver_bic" (PStr "").
Proof.
  intro m. split; [vm_compute; reflexivity|].
  destruct (evaluate_message_valid m [] ltac:(vm_compute; reflexivity))
    as [_ [_ [_ [_ [_ [Hs [_ Hne]]]]]]].
  split; [exact Hs|exact Hne].
Defined.




Lemma dict_lookup_snoc (c : message) (f g : string) (v : pyval) :
  dict_lookup (c ++ [(f, v)])%list g =
  match dict_lookup c g with
  | Some w => Some w
  | None => if String.eqb g f then Some v else None
  end.
Proof.
  induction c as [|[k w] c IH]; cbn [app dict_lookup]; [reflexivity|].
  destruct (String.eqb g k); [reflexivity|exact IH].
Qed.

Lemma fill_fields_lookup (m : message) (fs : list string) (c : message) (g : string) :
  dict_lookup (fold_left (fun c field =>
      match dict_lookup c field with
      | Some _ => c
      | None => (c ++ [(field, get m field (PStr ""))])%list
      end) fs c) g =
  match dict_lookup c g with
  | Some v => Some v
  | None => if mem g fs then Some (get m g (PStr "")) else None
  end.
Proof.
  revert c. induction fs as [|f fs IH]; intro c; cbn [fold_left].
  - destruct (dict_lookup c g); reflexivity.
  - rewrite IH. unfold mem. cbn [existsb]. fold (mem g fs).
    destruct (String.eqb g f) eqn:Egf.
    + apply String.eqb_eq in Egf. subst g.
      destruct (dict_lookup c f) as [w|] eqn:Ec.
      * rewrite Ec. reflexivity.
      * rewrite dict_lookup_snoc, Ec, String.eqb_refl. reflexivity.
    + destruct (dict_lookup c f) as [w|] eqn:Ec.
      * reflexivity.
      * rewrite dict_lookup_snoc, Egf. cbn [orb].
        destruct (dict_lookup c g); reflexivity.
Qed.

(** When the correction step returns a dict, [optimize_message] keeps every
    value of that dict and adds exactly the missing required fields, copied
    from the original message ([''] when absent there). *)
Theorem optimize_message_fills (respond : message -> list string -> res message)
  (m : message) (errors : list string) (corrected : message)
  (Hne : errors <> []) (Hr : respond m errors = inr corrected) (g : string) :
  dict_lookup (optimize_message respond m errors) g =
  match dict_lookup corrected g with
  | Some v => Some v
  | None => if mem g required_fields then Some (get m g (PStr "")) else None
  end.
Proof.
  unfold optimize_message. destruct errors as [|e es]; [contradiction|].
  rewrite Hr. apply fill_fields_lookup.
Qed.

Lemma optimize_message_fills_witness :
  let respond := fun (_ : message) (_ : list string) =>
                   (inr [("amount", PStr "100.00 USD")] : res message) in
  let m := [("message_type", PStr "MT103"); ("reference", PStr "R1")] in
  dict_lookup (optimize_message respond m ["Missing required field: amount"])
    "reference" = Some (PStr "R1").
Proof.
  intros respond m.
  rewrite (optimize_message_fills respond m ["Missing required field: amount"]
             [("amount", PStr "100.00 USD")]); [reflexivity|discriminate|reflexivity].
Defined.








Lemma stats_fold_bounds (ms : list message) (st : report_stats) :
  let st' := fold_left stats_step ms st in
  (valid_count st' <= valid_count st + length ms)%nat /\
  (fraudulent_count st' <= fraudulent_count st + length ms)%nat /\
  (mt103_count st' + mt202_count st' <= mt103_count st + mt202_count st + length ms)%nat.
Proof.
  revert st. induction ms as [|msg ms IH]; intro st; cbv zeta; cbn [fold_left length].
  - lia.
  - destruct (IH (stats_step st msg)) as [H1 [H2 H3]].
    set (st' := fold_left stats_step ms (stats_step st msg)) in *.
    clearbody st'. unfold stats_step in H1, H2, H3.
    destruct (pyval_eqb (get msg "validation_status" PNone) (PStr "VALID"));
    destruct (pyval_eqb (get msg "fraud_status" PNone) (PStr "FRAUDULENT"));
    destruct (pyval_eqb (get msg "message_type" PNone) (PStr "MT103"));
    try destruct (pyval_eqb (get msg "message_type" PNone) (PStr "MT202"));
    cbn [valid_count fraudulent_count mt103_count mt202_count] in H1, H2, H3; lia.
Qed.

(** The report's valid, fraudulent and MT103 + MT202 counts never exceed
    the number of messages, so the 'Clean Messages' line shows the
    non-negative count n - fraudulent. *)
Theorem report_summary_counts (now : string) (ms : list message) :
  let st := fold_left stats_step ms (mk_stats 0 0 0 0 0) in
  (valid_count st <= length ms)%nat /\
  (fraudulent_count st <= length ms)%nat /\
  (mt103_count st + mt202_count st <= length ms)%nat /\
  nth 9 (all_transactions_report now ms) "" =
    "- Clean Messages: " ++ nat_str (length ms - fraudulent_count st).
Proof.
  cbv zeta.
  destruct (stats_fold_bounds ms (mk_stats 0 0 0 0 0)) as [H1 [H2 H3]].
  cbn [valid_count fraudulent_count mt103_count mt202_count] in H1, H2, H3.
  split; [lia|]. split; [lia|]. split; [lia|].
  unfold all_transactions_report. cbv zeta. cbn [nth app].
  unfold Z_str.
  rewrite <- Nat2Z.inj_sub by lia.
  replace (Z.of_nat (length ms - fraudulent_count (fold_left stats_step ms (mk_stats 0 0 0 0 0))) <? 0)%Z
    with false by (symmetry; apply Z.ltb_ge; lia).
  rewrite Nat2Z.id. reflexivity.
Qed.
